(** * The Demikernel CI driver ([tools/demikernel_ci_new.py])

    A shallow embedding of the job orchestration engine: the remote command
    launchers, the job waiter and reporter, the stage builders and the
    pipeline driver, followed by the properties of the specification. *)

From Stdlib Require Import ZArith String Ascii List Bool.
From stdpp Require Import base strings list gmap.
Import ListNotations.

Local Open Scope string_scope.
Local Open Scope Z_scope.
Local Open Scope list_scope.

(** ** Strings *)

(** The two characters of the command templates that a literal cannot hold
    conveniently: the double quote and the backslash. *)
Definition dquote : string := String (ascii_of_nat 34) EmptyString.
Definition backslash : string := String (ascii_of_nat 92) EmptyString.

(** [s.replace("/", "_")] *)
Fixpoint replace_slash (s : string) : string :=
  match s with
  | EmptyString => EmptyString
  | String c s' =>
      String (if Ascii.eqb c "/"%char then "_"%char else c) (replace_slash s')
  end.

(** Python's truth value of an optional string: [None] and the empty string
    are false. *)
Definition truthy (s : option string) : bool :=
  match s with
  | None => false
  | Some s => negb (String.eqb s EmptyString)
  end.

(** ** Dictionaries

    A Python [dict] keeps its keys in insertion order, and an assignment to
    an existing key keeps the key's position. *)
Section Dict.
Context {V : Type}.

Fixpoint dict_set (k : string) (v : V) (d : list (string * V)) : list (string * V) :=
  match d with
  | [] => [(k, v)]
  | (k', v') :: d' =>
      if String.eqb k' k then (k', v) :: d' else (k', v') :: dict_set k v d'
  end.

Fixpoint dict_get (k : string) (d : list (string * V)) : option V :=
  match d with
  | [] => None
  | (k', v') :: d' => if String.eqb k' k then Some v' else dict_get k d'
  end.

Definition dict_keys (d : list (string * V)) : list string := map fst d.
Definition dict_values (d : list (string * V)) : list V := map snd d.
End Dict.

(** ** Exceptions and results *)

Inductive exn : Type :=
| IndexError                      (* list index out of range *)
| KeyError (key : string)         (* missing dictionary key *)
| ValueError                      (* [time.sleep] refusing a negative delay *)
| OverflowError                   (* [time.sleep] refusing a delay too large *)
| FileExistsError (path : string) (* [mkdir] on an existing directory *)
| SystemExit (code : Z)           (* [sys.exit(code)] *)
| ExternalError (msg : string).   (* raised by the test catalog modules *)

Inductive result (A : Type) : Type :=
| Ok (a : A)
| Raise (e : exn).
Arguments Ok {A} a.
Arguments Raise {A} e.

(** The exit status the operating system sees: the low eight bits of the
    argument of [sys.exit], and 1 for any other uncaught exception. *)
Definition process_exit_code (e : exn) : Z :=
  match e with
  | SystemExit code => Z.land code 255
  | _ => 1
  end.

(** ** The world the driver runs in *)

Section World.

(** Python's [float]. The driver never computes with the delay: it hands
    it to [time.sleep]; the only arithmetic is the elapsed time of the
    report line. Both stay abstract. *)
Variable float : Type.

(** What the driver does to the outside, in program order. A process is
    named by the order of its launch. *)
Inductive event : Type :=
| EvPopen (pid : nat) (ssh_cmd : string)   (* [subprocess.Popen(ssh_cmd, ...)] *)
| EvSleep (d : float)                      (* [time.sleep(d)] *)
| EvCommunicate (pid : nat)                (* [j.communicate()] *)
| EvWrite (path content : string)          (* [open(path, "w")], [file.write] *)
| EvPrint (passed : bool) (duration : float) (name : string)
| EvRmtree (path : string)
| EvMove (src dst : string)
| EvMkdir (path : string).

(** A job set is a [dict] object shared by a stage builder and the waiter;
    the store maps object identities to their contents, a job name to the
    process handle held under it. *)
Record World : Type := mkWorld {
  next_pid : nat;
  next_ref : nat;
  heap : gmap nat (list (string * nat));
  dirs : gset string;
  trace : list event
}.

(** The remote hosts, the clock and [time.sleep], as oracles of the run:
    the exit status and the output of each process, the reading of the
    clock after a history, the delays [time.sleep] takes, and what it
    raises on a delay it refuses ([ValueError] on a negative one,
    [OverflowError] on one too large for its clock). *)
Class Platform : Type := {
  returncode : nat -> Z;
  stdout_of : nat -> string;
  stderr_of : nat -> string;
  wall_clock : list event -> float;
  elapsed_ms : float -> float -> float;
  sleep_accepts : float -> bool;
  sleep_error : float -> exn
}.

Definition M (A : Type) : Type := World -> result A * World.

(** The facts threaded into every system test. *)
Record Scaffolding : Type := mkScaffolding {
  sc_libos : string;
  sc_server_name : string;
  sc_server_ip : string;
  sc_client_name : string;
  sc_client_ip : string;
  sc_is_debug : bool;
  sc_is_sudo : bool;
  sc_repository : string;
  sc_delay : float;
  sc_config_path : string;
  sc_log_directory : string
}.

(** The type of [job_test_system_rust], handed to the instantiator. *)
Definition system_job : Type :=
  string -> string -> string -> string -> bool -> string -> string -> string ->
  string -> bool -> bool -> float -> string -> string -> M bool.

(** The test catalog: [ci.src.ci_map], [ci.src.test_instantiator] and
    [ci.src.base_test] are modules outside this file, and the driver is
    parametric in them. Each of their calls may change the world and may
    raise. *)
Class Catalog : Type := {
  CIMap : Type;
  TestDetails : Type;
  BaseTest : Type;
  read_file : string -> M string;
  new_CIMap : string -> M CIMap;
  get_test_details : CIMap -> string -> string -> M TestDetails;
  keys : TestDetails -> list string;
  get_test_instance : string -> Scaffolding -> TestDetails -> system_job -> M BaseTest;
  execute : BaseTest -> M bool
}.

(** The parsed command line, as [main] reads it. *)
Record Namespace : Type := mkNamespace {
  arg_server : string;
  arg_client : string;
  arg_repository : string;
  arg_branch : string;
  arg_libos : string;
  arg_debug : bool;
  arg_delay : float;
  arg_config_path : string;
  arg_enable_nfs : bool;
  arg_test_unit : bool;
  arg_test_system : option string;
  arg_server_addr : string;
  arg_client_addr : string;
  arg_output_dir : string
}.

End World.

Arguments EvPopen {float} pid ssh_cmd.
Arguments EvSleep {float} d.
Arguments EvCommunicate {float} pid.
Arguments EvWrite {float} path content.
Arguments EvPrint {float} passed duration name.
Arguments EvRmtree {float} path.
Arguments EvMove {float} src dst.
Arguments EvMkdir {float} path.
Arguments mkWorld {float} next_pid next_ref heap dirs trace.
Arguments next_pid {float} w.
Arguments next_ref {float} w.
Arguments heap {float} w.
Arguments dirs {float} w.
Arguments trace {float} w.
Arguments returncode {float Platform} _.
Arguments stdout_of {float Platform} _.
Arguments stderr_of {float Platform} _.
Arguments wall_clock {float Platform} _.
Arguments elapsed_ms {float Platform} _ _.
Arguments sleep_accepts {float Platform} _.
Arguments sleep_error {float Platform} _.
Arguments mkScaffolding {float}.
Arguments sc_libos {float} s.
Arguments sc_server_name {float} s.
Arguments sc_server_ip {float} s.
Arguments sc_client_name {float} s.
Arguments sc_client_ip {float} s.
Arguments sc_is_debug {float} s.
Arguments sc_is_sudo {float} s.
Arguments sc_repository {float} s.
Arguments sc_delay {float} s.
Arguments sc_config_path {float} s.
Arguments sc_log_directory {float} s.
Arguments mkNamespace {float}.
Arguments arg_server {float} n.
Arguments arg_client {float} n.
Arguments arg_repository {float} n.
Arguments arg_branch {float} n.
Arguments arg_libos {float} n.
Arguments arg_debug {float} n.
Arguments arg_delay {float} n.
Arguments arg_config_path {float} n.
Arguments arg_enable_nfs {float} n.
Arguments arg_test_unit {float} n.
Arguments arg_test_system {float} n.
Arguments arg_server_addr {float} n.
Arguments arg_client_addr {float} n.
Arguments arg_output_dir {float} n.
Arguments CIMap {float Catalog}.
Arguments TestDetails {float Catalog}.
Arguments BaseTest {float Catalog}.
Arguments read_file {float Catalog} _.
Arguments new_CIMap {float Catalog} _.
Arguments get_test_details {float Catalog} _ _ _.
Arguments keys {float Catalog} _.
Arguments get_test_instance {float Catalog} _ _ _ _.
Arguments execute {float Catalog} _.

Section Driver.

Context {float : Type} {platform : Platform float}.

Local Abbreviation M := (M float).
Local Abbreviation World := (World float).
Local Abbreviation event := (event float).

(** *** State and exceptions *)

Definition ret {A} (a : A) : M A := fun w => (Ok a, w).
Definition raise {A} (e : exn) : M A := fun w => (Raise e, w).
Definition bind {A B} (m : M A) (f : A -> M B) : M B :=
  fun w =>
    match m w with
    | (Ok a, w') => f a w'
    | (Raise e, w') => (Raise e, w')
    end.

Notation "x <- c1 ;; c2" := (bind c1 (fun x => c2))
  (at level 100, c1 at next level, right associativity).
Notation "c1 ;; c2" := (bind c1 (fun _ => c2))
  (at level 100, right associativity).

Definition emit (e : event) : M unit :=
  fun w => (Ok tt, mkWorld (next_pid w) (next_ref w) (heap w) (dirs w) (trace w ++ [e])).

(** *** Primitives of the Python runtime *)

(** [l[i]] *)
Definition index {A} (l : list A) (i : nat) : M A :=
  match l !! i with
  | Some x => ret x
  | None => raise IndexError
  end.

(** [d[k]] *)
Definition getitem {V} (d : list (string * V)) (k : string) : M V :=
  match dict_get k d with
  | Some v => ret v
  | None => raise (KeyError k)
  end.

(** [subprocess.Popen(ssh_cmd, shell=True, ...)]: returns at once with a
    handle. *)
Definition popen (ssh_cmd : string) : M nat :=
  fun w =>
    (Ok (next_pid w),
     mkWorld (S (next_pid w)) (next_ref w) (heap w) (dirs w)
             (trace w ++ [EvPopen (next_pid w) ssh_cmd])).

(** [j.communicate()] *)
Definition communicate (j : nat) : M (string * string) :=
  emit (EvCommunicate j) ;; ret (stdout_of j, stderr_of j).

(** [with open(path, "w") as file: file.write(content)]. The write is
    recorded under the path as the driver spells it; the file system
    behind the path (whether [open] finds the directory, which spellings
    name the same file) is outside the model. *)
Definition write_file (path content : string) : M unit :=
  emit (EvWrite path content).

Definition sleep (d : float) : M unit :=
  if sleep_accepts d then emit (EvSleep d) else raise (sleep_error d).

Definition time_time : M float := fun w => (Ok (wall_clock (trace w)), w).

(** [jobs = {}] *)
Definition new_dict : M nat :=
  fun w =>
    (Ok (next_ref w),
     mkWorld (next_pid w) (S (next_ref w)) (<[next_ref w := []]> (heap w))
             (dirs w) (trace w)).

(** The contents of the job set [r]; an identity under which no [dict] was
    made reads as the empty one. *)
Definition jobs_of (w : World) (r : nat) : list (string * nat) :=
  default [] (heap w !! r).

(** [jobs[name] = j] *)
Definition setitem (r : nat) (name : string) (j : nat) : M unit :=
  fun w =>
    (Ok tt,
     mkWorld (next_pid w) (next_ref w)
             (<[r := dict_set name j (jobs_of w r)]> (heap w)) (dirs w) (trace w)).

(** [jobs.items()] *)
Definition items (r : nat) : M (list (string * nat)) :=
  fun w => (Ok (jobs_of w r), w).

(** [jobs.clear()] *)
Definition clear (r : nat) : M unit :=
  fun w =>
    (Ok tt,
     mkWorld (next_pid w) (next_ref w) (<[r := []]> (heap w)) (dirs w) (trace w)).

(** The directory calls of [os] and [shutil], on the set of the names of
    the directories that exist. What is under a directory, regular files
    and the other failures of these calls (a missing parent, a permission)
    are outside the model. *)
Definition isdir (path : string) : M bool :=
  fun w => (Ok (bool_decide (path ∈ dirs w)), w).

Definition rmtree (path : string) : M unit :=
  fun w =>
    (Ok tt,
     mkWorld (next_pid w) (next_ref w) (heap w) (dirs w ∖ {[path]})
             (trace w ++ [EvRmtree path])).

Definition move (src dst : string) : M unit :=
  fun w =>
    (Ok tt,
     mkWorld (next_pid w) (next_ref w) (heap w) ({[dst]} ∪ dirs w ∖ {[src]})
             (trace w ++ [EvMove src dst])).

Definition mkdir (path : string) : M unit :=
  fun w =>
    if bool_decide (path ∈ dirs w) then (Raise (FileExistsError path), w)
    else
      (Ok tt,
       mkWorld (next_pid w) (next_ref w) (heap w) ({[path]} ∪ dirs w)
               (trace w ++ [EvMkdir path])).

(** *** Utilities *)

(** The [timing] decorator: the wrapped call, with the elapsed wall-clock
    time in milliseconds. *)
Definition timing {A} (f : M A) : M (A * float) :=
  time1 <- time_time ;;
  ret_ <- f ;;
  time2 <- time_time ;;
  ret (ret_, elapsed_ms time1 time2).

(** The loop of [wait_jobs2] over [jobs.items()]. *)
Fixpoint wait_each (log_directory : string) (its : list (string * nat))
    (status : list (nat * Z)) : M (list (nat * Z)) :=
  match its with
  | [] => ret status
  | (job_name, j) :: rest =>
      out <- communicate j ;;
      let status := status ++ [(j, returncode j)] in
      write_file (log_directory +:+ "/" +:+ job_name +:+ ".stdout.txt") (fst out) ;;
      write_file (log_directory +:+ "/" +:+ job_name +:+ ".stderr.txt") (snd out) ;;
      wait_each log_directory rest status
  end.

Definition wait_jobs2 (log_directory : string) (jobs : nat) : M (list (nat * Z)) :=
  its <- items jobs ;;
  status <- wait_each log_directory its [] ;;
  (* Cleanup list of jobs. *)
  clear jobs ;;
  ret status.

Definition wait_jobs (log_directory : string) (jobs : nat) : M (list (nat * Z) * float) :=
  timing (wait_jobs2 log_directory jobs).

Definition wait_and_report (name log_directory : string) (jobs : nat)
    (all_pass : bool) : M bool :=
  ret_ <- wait_jobs log_directory jobs ;;
  let status := fst ret_ in
  let duration := snd ret_ in
  passed <-
    (if (1 <? length status)%nat then
       if all_pass then
         s0 <- index status 0 ;;
         if snd s0 =? 0 then s1 <- index status 1 ;; ret (snd s1 =? 0)
         else ret false
       else
         s0 <- index status 0 ;;
         if snd s0 =? 0 then ret true
         else s1 <- index status 1 ;; ret (snd s1 =? 0)
     else
       s0 <- index status 0 ;; ret (snd s0 =? 0)) ;;
  emit (EvPrint passed duration name) ;;
  ret passed.

(** *** Remote commands *)

(** The [ssh_cmd] of every launcher: [ssh <host> "bash -l -c '<cmd>'"]. *)
Definition ssh_cmd (host cmd : string) : string :=
  "ssh " +:+ host +:+ " " +:+ dquote +:+ "bash -l -c '" +:+ cmd +:+ "'" +:+ dquote.

Definition debug_flag (is_debug : bool) : string :=
  if is_debug then "DEBUG=yes" else "DEBUG=no".

Definition sudo_cmd (is_sudo : bool) : string :=
  if is_sudo then "sudo -E" else EmptyString.

Definition checkout_cmd (repository branch : string) : string :=
  "cd " +:+ repository +:+ " && git pull origin && git checkout " +:+ branch.

Definition compile_cmd (repository target : string) (is_debug : bool) : string :=
  "cd " +:+ repository +:+ " && make PROFILER=yes " +:+ debug_flag is_debug
    +:+ " " +:+ target.

Definition run_cmd (repository : string) (is_debug : bool) (target : string)
    (is_sudo : bool) (config_path : string) : string :=
  "cd " +:+ repository +:+ " && " +:+ sudo_cmd is_sudo +:+ " make CONFIG_PATH="
    +:+ config_path +:+ " " +:+ debug_flag is_debug +:+ " " +:+ target.

Definition cleanup_cmd (workspace : string) (is_sudo : bool)
    (default_branch : string) : string :=
  "cd " +:+ workspace +:+ " && " +:+ sudo_cmd is_sudo +:+ " make clean && git checkout "
    +:+ default_branch +:+ " && git clean -fdx".

Definition remote_checkout (host repository branch : string) : M nat :=
  popen (ssh_cmd host (checkout_cmd repository branch)).

Definition remote_compile (host repository target : string) (is_debug : bool) : M nat :=
  popen (ssh_cmd host (compile_cmd repository target is_debug)).

Definition remote_run (host repository : string) (is_debug : bool) (target : string)
    (is_sudo : bool) (config_path : string) : M nat :=
  popen (ssh_cmd host (run_cmd repository is_debug target is_sudo config_path)).

(** [default_branch] defaults to ["dev"], and no caller passes another. *)
Definition remote_cleanup (host workspace : string) (is_sudo : bool) : M nat :=
  popen (ssh_cmd host (cleanup_cmd workspace is_sudo "dev")).

(** *** Generic jobs *)

Definition job_checkout (repository branch server client : string)
    (enable_nfs : bool) (log_directory : string) : M bool :=
  jobs <- new_dict ;;
  let test_name := "checkout" in
  j <- remote_checkout server repository branch ;;
  setitem jobs (test_name +:+ "-server-" +:+ server) j ;;
  (if negb enable_nfs then
     j <- remote_checkout client repository branch ;;
     setitem jobs (test_name +:+ "-client-" +:+ client) j
   else ret tt) ;;
  wait_and_report test_name log_directory jobs true.

Definition job_compile (repository libos : string) (is_debug : bool)
    (server client : string) (enable_nfs : bool) (log_directory : string) : M bool :=
  jobs <- new_dict ;;
  let test_name := "compile-" +:+ (if is_debug then "debug" else "release") in
  j <- remote_compile server repository ("all LIBOS=" +:+ libos) is_debug ;;
  setitem jobs (test_name +:+ "-server-" +:+ server) j ;;
  (if negb enable_nfs then
     j <- remote_compile client repository ("all LIBOS=" +:+ libos) is_debug ;;
     setitem jobs (test_name +:+ "-client-" +:+ client) j
   else ret tt) ;;
  wait_and_report test_name log_directory jobs true.

(** [ARGS=\"<args>\"], the quotes escaped for the remote shell. *)
Definition quoted_args (args : string) : string :=
  "ARGS=" +:+ backslash +:+ dquote +:+ args +:+ backslash +:+ dquote.

Definition job_test_system_rust (test_alias test_name repo libos : string)
    (is_debug : bool) (server client server_args client_args : string)
    (is_sudo all_pass : bool) (delay : float) (config_path log_directory : string)
    : M bool :=
  let server_cmd :=
    "test-system-rust LIBOS=" +:+ libos +:+ " TEST=" +:+ test_name +:+ " "
      +:+ quoted_args server_args in
  let client_cmd :=
    "test-system-rust LIBOS=" +:+ libos +:+ " TEST=" +:+ test_name +:+ " "
      +:+ quoted_args client_args in
  jobs <- new_dict ;;
  j <- remote_run server repo is_debug server_cmd is_sudo config_path ;;
  setitem jobs (test_alias +:+ "-server-" +:+ server) j ;;
  sleep delay ;;
  j <- remote_run client repo is_debug client_cmd is_sudo config_path ;;
  setitem jobs (test_alias +:+ "-client-" +:+ client) j ;;
  wait_and_report test_alias log_directory jobs all_pass.

Definition job_test_unit_rust (repo libos : string) (is_debug : bool)
    (server client : string) (is_sudo : bool) (config_path log_directory : string)
    : M bool :=
  let server_cmd := "test-unit-rust LIBOS=" +:+ libos in
  let test_name := "unit-test" in
  jobs <- new_dict ;;
  j <- remote_run server repo is_debug server_cmd is_sudo config_path ;;
  setitem jobs (test_name +:+ "-server-" +:+ server) j ;;
  (* Unit tests require a single endpoint, so do not run them on client. *)
  wait_and_report test_name log_directory jobs true.

Definition tcp_server_args (server_addr client_addr : string) : string :=
  "--local-address " +:+ server_addr +:+ ":12345 --remote-address " +:+ client_addr
    +:+ ":23456".

Definition tcp_client_args (server_addr client_addr : string) : string :=
  "--local-address " +:+ client_addr +:+ ":23456 --remote-address " +:+ server_addr
    +:+ ":12345".

Definition tcp_cmd (libos args : string) : string :=
  "test-integration-rust TEST_INTEGRATION=tcp-test LIBOS=" +:+ libos +:+ " "
    +:+ quoted_args args.

Definition job_test_integration_tcp_rust (repo libos : string) (is_debug : bool)
    (server client server_addr client_addr : string) (is_sudo : bool)
    (config_path log_directory : string) : M bool :=
  let server_args := tcp_server_args server_addr client_addr in
  let client_args := tcp_client_args server_addr client_addr in
  let server_cmd := tcp_cmd libos server_args in
  let client_cmd := tcp_cmd libos client_args in
  let test_name := "integration-test" in
  jobs <- new_dict ;;
  j <- remote_run server repo is_debug server_cmd is_sudo config_path ;;
  setitem jobs (test_name +:+ "-server-" +:+ server) j ;;
  j <- remote_run client repo is_debug client_cmd is_sudo config_path ;;
  setitem jobs (test_name +:+ "-client-" +:+ client) j ;;
  wait_and_report test_name log_directory jobs true.

Definition pipe_args (peer server_addr run_mode : string) : string :=
  "--peer " +:+ peer +:+ " --pipe-name " +:+ server_addr +:+ ":12345 --run-mode "
    +:+ run_mode.

Definition pipe_cmd (libos args : string) : string :=
  "test-integration-rust TEST_INTEGRATION=pipe-test LIBOS=" +:+ libos +:+ " "
    +:+ quoted_args args.

Definition job_test_integration_pipe_rust (repo libos : string) (is_debug : bool)
    (run_mode server client server_addr : string) (delay : float) (is_sudo : bool)
    (config_path log_directory : string) : M bool :=
  let server_args := pipe_args "server" server_addr run_mode in
  let client_args := pipe_args "client" server_addr run_mode in
  let server_cmd := pipe_cmd libos server_args in
  let client_cmd := pipe_cmd libos client_args in
  let test_name := "integration-test" +:+ "-" +:+ run_mode in
  jobs <- new_dict ;;
  j <- remote_run server repo is_debug server_cmd is_sudo config_path ;;
  setitem jobs (test_name +:+ "-server-" +:+ server) j ;;
  (if negb (String.eqb run_mode "standalone") then
     sleep delay ;;
     j <- remote_run client repo is_debug client_cmd is_sudo config_path ;;
     setitem jobs (test_name +:+ "-client-" +:+ client) j
   else ret tt) ;;
  wait_and_report test_name log_directory jobs true.

Definition job_cleanup (repository server client : string) (is_sudo enable_nfs : bool)
    (log_directory : string) : M bool :=
  let test_name := "cleanup" in
  jobs <- new_dict ;;
  j <- remote_cleanup server repository is_sudo ;;
  setitem jobs (test_name +:+ "-server-" +:+ server) j ;;
  (if negb enable_nfs then
     j <- remote_cleanup client repository is_sudo ;;
     setitem jobs (test_name +:+ "-client-" +:+ client +:+ "-") j
   else ret tt) ;;
  wait_and_report test_name log_directory jobs true.

(** *** The test catalog *)

Context {catalog : Catalog float}.

Definition create_scaffolding (libos server_name server_addr client_name client_addr : string)
    (is_debug is_sudo : bool) (repository : string) (delay : float)
    (config_path log_directory : string) : Scaffolding float :=
  mkScaffolding libos server_name server_addr client_name client_addr is_debug is_sudo
                repository delay config_path log_directory.

Definition get_ci_map : M CIMap :=
  let path := "tools/ci/config/ci_map.yaml" in
  yaml_str <- read_file path ;;
  new_CIMap yaml_str.

Definition get_tests_to_run (scaffolding : Scaffolding float) (ci_map : CIMap)
    : M (list string) :=
  td <- get_test_details ci_map (sc_libos scaffolding) "all" ;;
  ret (keys td).

Definition create_test_instance (scaffolding : Scaffolding float) (ci_map : CIMap)
    (test_name : string) : M BaseTest :=
  td <- get_test_details ci_map (sc_libos scaffolding) test_name ;;
  get_test_instance test_name scaffolding td job_test_system_rust.

(** *** The pipeline *)

Definition is_sudo_of (libos : string) : bool :=
  if String.eqb libos "catnip" || String.eqb libos "catpowder"
     || String.eqb libos "catloop"
  then true else false.

Definition log_directory_of (output_dir libos branch : string) (is_debug : bool)
    : string :=
  output_dir +:+ "/"
    +:+ replace_slash (libos +:+ "-" +:+ branch +:+ "-"
                         +:+ (if is_debug then "debug" else "release")).

(** Create folder for test logs, keeping the last run. *)
Definition rotate_logs (log_directory : string) : M unit :=
  b <- isdir log_directory ;;
  (if b then
     let old_dir := log_directory +:+ ".old" in
     b' <- isdir old_dir ;;
     (if b' then rmtree old_dir else ret tt) ;;
     move log_directory old_dir
   else ret tt) ;;
  mkdir log_directory.

(** [status["checkout"] and status["compile"]]: the second key is read
    only when the first value is true. *)
Definition gate (status : list (string * bool)) : M bool :=
  c <- getitem status "checkout" ;;
  if c then getitem status "compile" else ret false.

(** STEP 3: Run unit tests. *)
Definition unit_stage (repository libos : string) (is_debug : bool)
    (server client : string) (test_unit : bool) (server_addr client_addr : string)
    (delay : float) (config_path : string) (is_sudo : bool) (log_directory : string)
    (status : list (string * bool)) : M (list (string * bool)) :=
  if test_unit then
    g <- gate status ;;
    if g then
      v <- job_test_unit_rust repository libos is_debug server client is_sudo
                              config_path log_directory ;;
      let status := dict_set "unit_tests" v status in
      if String.eqb libos "catnap" then
        v <- job_test_integration_tcp_rust repository libos is_debug server client
               server_addr client_addr is_sudo config_path log_directory ;;
        ret (dict_set "integration_tests" v status)
      else if String.eqb libos "catmem" then
        let pipe run_mode :=
          job_test_integration_pipe_rust repository libos is_debug run_mode server
            client server_addr delay is_sudo config_path log_directory in
        v <- pipe "standalone" ;;
        let status := dict_set "integration_tests" v status in
        v <- pipe "push-wait" ;;
        let status := dict_set "integration_tests" v status in
        v <- pipe "pop-wait" ;;
        let status := dict_set "integration_tests" v status in
        v <- pipe "push-wait-async" ;;
        let status := dict_set "integration_tests" v status in
        v <- pipe "pop-wait-async" ;;
        let status := dict_set "integration_tests" v status in
        ret status
      else ret status
    else ret status
  else ret status.

(** The loop of STEP 4 over [test_names]. *)
Fixpoint run_tests (scaffolding : Scaffolding float) (ci_map : CIMap)
    (test_names : list string) (status : list (string * bool))
    : M (list (string * bool)) :=
  match test_names with
  | [] => ret status
  | test_name :: rest =>
      t <- create_test_instance scaffolding ci_map test_name ;;
      v <- execute t ;;
      run_tests scaffolding ci_map rest (dict_set test_name v status)
  end.

(** STEP 4: Run system tests. *)
Definition system_stage (repository libos : string) (is_debug : bool)
    (server client : string) (test_system : option string)
    (server_addr client_addr : string) (delay : float) (config_path : string)
    (is_sudo : bool) (log_directory : string) (status : list (string * bool))
    : M (list (string * bool)) :=
  if truthy test_system then
    g <- gate status ;;
    if g then
      let scaffolding :=
        create_scaffolding libos server server_addr client client_addr is_debug
                           is_sudo repository delay config_path log_directory in
      ci_map <- get_ci_map ;;
      test_names <-
        (if bool_decide (test_system = Some "all")
         then get_tests_to_run scaffolding ci_map
         else ret (match test_system with Some n => [n] | None => [] end)) ;;
      run_tests scaffolding ci_map test_names status
    else ret status
  else ret status.

(** Runs the CI pipeline. *)
Definition run_pipeline (repository branch libos : string) (is_debug : bool)
    (server client : string) (test_unit : bool) (test_system : option string)
    (server_addr client_addr : string) (delay : float)
    (config_path output_dir : string) (enable_nfs : bool)
    : M (list (string * bool)) :=
  let is_sudo := is_sudo_of libos in
  let status : list (string * bool) := [] in
  let log_directory := log_directory_of output_dir libos branch is_debug in
  rotate_logs log_directory ;;
  (* STEP 1: Check out. *)
  v <- job_checkout repository branch server client enable_nfs log_directory ;;
  let status := dict_set "checkout" v status in
  (* STEP 2: Compile debug. *)
  c <- getitem status "checkout" ;;
  status <-
    (if c then
       v <- job_compile repository libos is_debug server client enable_nfs
                        log_directory ;;
       ret (dict_set "compile" v status)
     else ret status) ;;
  status <- unit_stage repository libos is_debug server client test_unit server_addr
              client_addr delay config_path is_sudo log_directory status ;;
  status <- system_stage repository libos is_debug server client test_system
              server_addr client_addr delay config_path is_sudo log_directory
              status ;;
  (* Step 5: Clean up. *)
  v <- job_cleanup repository server client is_sudo enable_nfs log_directory ;;
  ret (dict_set "cleanup" v status).

(** [False in status.values()] *)
Definition false_in (values : list bool) : bool := existsb negb values.

(** Drives the program, from the parsed arguments on. *)
Definition main (args : Namespace float) : M unit :=
  status <- run_pipeline (arg_repository args) (arg_branch args) (arg_libos args)
              (arg_debug args) (arg_server args) (arg_client args)
              (arg_test_unit args) (arg_test_system args) (arg_server_addr args)
              (arg_client_addr args) (arg_delay args) (arg_config_path args)
              (arg_output_dir args) (arg_enable_nfs args) ;;
  if false_in (dict_values status) then raise (SystemExit (-1))
  else raise (SystemExit 0).

(** *** Observations on a run *)

(** The launches and the sleeps of a history, in order. *)
Definition is_timing (e : event) : bool :=
  match e with
  | EvPopen _ _ | EvSleep _ => true
  | _ => false
  end.

Definition schedule (tr : list event) : list event := filter is_timing tr.

(** The commands launched in a history. *)
Fixpoint launches (tr : list event) : list string :=
  match tr with
  | [] => []
  | EvPopen _ cmd :: tr' => cmd :: launches tr'
  | _ :: tr' => launches tr'
  end.

(** The processes waited for in a history. *)
Fixpoint waited (tr : list event) : list nat :=
  match tr with
  | [] => []
  | EvCommunicate j :: tr' => j :: waited tr'
  | _ :: tr' => waited tr'
  end.

(** What waiting for the jobs [its] of a job set adds to the history. *)
Definition wait_events (log_directory : string) (its : list (string * nat))
    : list event :=
  flat_map
    (fun it =>
       [EvCommunicate (snd it);
        EvWrite (log_directory +:+ "/" +:+ fst it +:+ ".stdout.txt") (stdout_of (snd it));
        EvWrite (log_directory +:+ "/" +:+ fst it +:+ ".stderr.txt") (stderr_of (snd it))])
    its.

(** The world [wait_and_report] leaves: the job set [jobs] is empty, and
    the history has grown by [evs]. *)
Definition drained (w : World) (jobs : nat) (evs : list event) : World :=
  mkWorld (next_pid w) (next_ref w) (<[jobs := []]> (heap w)) (dirs w) (trace w ++ evs).

Definition report_line (w : World) (log_directory name : string)
    (its : list (string * nat)) (passed : bool) : event :=
  EvPrint passed
    (elapsed_ms (wall_clock (trace w))
                (wall_clock (trace w ++ wait_events log_directory its)))
    name.

(** A stage builder at the moment it calls the waiter: it has made the
    job set [its] as a new object, launched its [length its] processes
    and added [sched] to the history. *)
Definition stage_outcome (w : World) (test_name log_directory : string)
    (all_pass : bool) (sched : list event) (its : list (string * nat))
    : result bool * World :=
  wait_and_report test_name log_directory (next_ref w) all_pass
    (mkWorld (length its + next_pid w) (S (next_ref w))
             (<[next_ref w := its]> (heap w)) (dirs w) (trace w ++ sched)).

(** A stage returns a verdict, having launched exactly the commands
    [cmds], in this order, and waited for exactly these processes. *)
Definition stage_jobs (stage : M bool) (w : World) (cmds : list string) : Prop :=
  exists passed w' added,
    stage w = (Ok passed, w')
    /\ trace w' = trace w ++ added
    /\ launches added = cmds
    /\ waited added = seq (next_pid w) (length cmds).

(** The address arguments of the TCP test, from the two endpoints. *)
Definition address_args (local remote : string) : string :=
  "--local-address " +:+ local +:+ " --remote-address " +:+ remote.

(** The combination policy of section 4.2 of the specification, on the
    exit codes in the order of the job set: no verdict on an empty set. *)
Definition verdict (all_must_pass : bool) (codes : list Z) : option bool :=
  match codes with
  | [] => None
  | [c] => Some (c =? 0)
  | c0 :: c1 :: _ =>
      Some (if all_must_pass then (c0 =? 0) && (c1 =? 0) else (c0 =? 0) || (c1 =? 0))
  end.



(** The files written in a history, each with its content, in order. *)
Fixpoint written (tr : list event) : list (string * string) :=
  match tr with
  | [] => []
  | EvWrite path content :: tr' => (path, content) :: written tr'
  | _ :: tr' => written tr'
  end.

(** The report lines printed in a history: verdict and stage name. *)
Fixpoint printed (tr : list event) : list (bool * string) :=
  match tr with
  | [] => []
  | EvPrint passed _ name :: tr' => (passed, name) :: printed tr'
  | _ :: tr' => printed tr'
  end.

(** The two log files of a job, with what goes into them. *)
Definition log_files (log_directory : string) (it : string * nat)
    : list (string * string) :=
  [(log_directory +:+ "/" +:+ fst it +:+ ".stdout.txt", stdout_of (snd it));
   (log_directory +:+ "/" +:+ fst it +:+ ".stderr.txt", stderr_of (snd it))].

(** The keys of the status mapping of a run without system tests, in the
    order of their recording, from the verdicts of checkout and compile. *)
Definition stage_keys (libos : string) (test_unit checkout compile : bool)
    : list string :=
  "checkout"
    :: (if checkout then
          "compile"
            :: (if test_unit && compile then
                  "unit_tests"
                    :: (if String.eqb libos "catnap" || String.eqb libos "catmem"
                        then ["integration_tests"] else [])
                else [])
        else [])
    ++ ["cleanup"].

(** [s] without the prefix [p], when [s] starts with [p]. *)
Fixpoint strip_prefix (p s : string) : option string :=
  match p with
  | EmptyString => Some s
  | String c p' =>
      match s with
      | EmptyString => None
      | String c' s' => if Ascii.eqb c c' then strip_prefix p' s' else None
      end
  end.

(** What a launched command says about privilege, read off its text: the
    command [host] runs in [directory] has [make] under [sudo -E]
    ([Some true]) or has [make] with nothing but the blank of the template
    in front ([Some false]); any other command reads as [None]. *)
Definition launched_elevation (host directory launched : string) : option bool :=
  match strip_prefix ("ssh " +:+ host +:+ " " +:+ dquote +:+ "bash -l -c '") launched with
  | None => None
  | Some cmd =>
      match strip_prefix ("cd " +:+ directory +:+ " && ") cmd with
      | None => None
      | Some rest =>
          if String.prefix "sudo -E make " rest then Some true
          else if String.prefix " make " rest then Some false
          else None
      end
  end.





End Driver.

(** ** Concrete hosts for example runs

    Delays are whole seconds; a process exits with the status the script
    [rc] gives it; [time.sleep] takes the delays from 0 to the largest
    its clock of 2^63 nanoseconds holds. *)

Definition scripted_host (rc : nat -> Z) : Platform Z :=
  {| returncode := rc;
     stdout_of := fun _ => "out";
     stderr_of := fun _ => "err";
     wall_clock := fun tr => Z.of_nat (length tr);
     elapsed_ms := fun time1 time2 => (time2 - time1) * 1000;
     sleep_accepts := fun d => (0 <=? d) && (d <=? 9223372036);
     sleep_error := fun d => if d <? 0 then ValueError else OverflowError |}.

(** A host on which every process exits with 0, and one on which only the
    first process launched, number 0, fails. *)
Definition all_pass_host : Platform Z := scripted_host (fun _ => 0).
Definition first_fails_host : Platform Z :=
  scripted_host (fun pid => if Nat.eqb pid 0 then 1 else 0).

(** A host on which only the third process launched, number 2, fails. *)
Definition third_fails_host : Platform Z :=
  scripted_host (fun pid => if Nat.eqb pid 2 then 1 else 0).

(** The arguments of an example run: unit tests and all system tests of the
    shared-memory-pipe runtime, one second between server and client. *)
Definition catmem_args : Namespace Z :=
  mkNamespace "srv" "cli" "/demikernel" "feature/ci" "catmem" false 1 "cfg" false true
              (Some "all") "10.0.0.1" "10.0.0.2" ".".

(** A catalog with two tests for every runtime, both passing, that leaves
    the world alone. *)
Definition quiet_catalog : Catalog Z :=
  {| CIMap := unit;
     TestDetails := list string;
     BaseTest := string;
     read_file := fun _ w => (Ok "yaml", w);
     new_CIMap := fun _ w => (Ok tt, w);
     get_test_details := fun _ _ _ w => (Ok ["tcp_echo"; "tcp_close"], w);
     keys := fun td => td;
     get_test_instance := fun name _ _ _ w => (Ok name, w);
     execute := fun _ w => (Ok true, w) |}.

(** A catalog with the same two tests, each of which runs the system job
    once, on the facts of the scaffolding it is built from. *)
Definition scaffolded_catalog : Catalog Z :=
  {| CIMap := unit;
     TestDetails := list string;
     BaseTest := M Z bool;
     read_file := fun _ w => (Ok "yaml", w);
     new_CIMap := fun _ w => (Ok tt, w);
     get_test_details := fun _ _ _ w => (Ok ["tcp_echo"; "tcp_close"], w);
     keys := fun td => td;
     get_test_instance :=
       fun name sc _ job w =>
         (Ok (job name name (sc_repository sc) (sc_libos sc) (sc_is_debug sc)
                  (sc_server_name sc) (sc_client_name sc) "--peer server"
                  "--peer client" (sc_is_sudo sc) true (sc_delay sc)
                  (sc_config_path sc) (sc_log_directory sc)), w);
     execute := fun t => t |}.

Definition empty_world : World Z := mkWorld 0 0 ∅ ∅ [].

(** A world holding one job set, object 0, with the given jobs. *)
Definition world_with_jobs (its : list (string * nat)) : World Z :=
  mkWorld (length its) 1 {[ 0%nat := its ]} ∅ [].

(** ** Properties *)

Section Properties.

Context {float : Type} {platform : Platform float} {catalog : Catalog float}.

Local Abbreviation M := (M float).
Local Abbreviation World := (World float).
Local Abbreviation event := (event float).

(** *** Dictionaries *)

Lemma dict_get_set_eq {V} (k : string) (v : V) d :
  dict_get k (dict_set k v d) = Some v.
Proof.
  induction d as [|[k' v'] d IH]; simpl.
  - now rewrite String.eqb_refl.
  - destruct (String.eqb k' k) eqn:E; simpl; rewrite E; auto.
Qed.

Lemma dict_get_set_ne {V} (k k0 : string) (v : V) d :
  k <> k0 -> dict_get k0 (dict_set k v d) = dict_get k0 d.
Proof.
  intros Hne. induction d as [|[k' v'] d IH]; simpl.
  - apply String.eqb_neq in Hne. now rewrite Hne.
  - destruct (String.eqb k' k) eqn:E; simpl.
    + apply String.eqb_eq in E. subst k'.
      apply String.eqb_neq in Hne. now rewrite Hne.
    + now rewrite IH.
Qed.


(** Two job names with the same stem and different roles differ. *)
Lemma eqb_append_stem (stem a b : string) :
  String.eqb (stem +:+ a) (stem +:+ b) = String.eqb a b.
Proof.
  induction stem as [|c stem IH]; simpl; [reflexivity|].
  now rewrite Ascii.eqb_refl.
Qed.

(** *** The waiter *)

Lemma wait_each_spec log_directory its : forall status (w : World),
  wait_each log_directory its status w
  = (Ok (status ++ map (fun it => (snd it, returncode (snd it))) its),
     mkWorld (next_pid w) (next_ref w) (heap w) (dirs w)
             (trace w ++ wait_events log_directory its)).
Proof.
  induction its as [|[job_name j] its IH]; intros status w.
  - simpl. unfold ret. rewrite !app_nil_r. now destruct w.
  - simpl. unfold bind, communicate, write_file, emit, bind, ret. simpl.
    rewrite IH. simpl. rewrite <- !app_assoc. reflexivity.
Qed.

Lemma wait_and_report_spec name log_directory jobs all_pass (w : World) :
  wait_and_report name log_directory jobs all_pass w
  = match verdict all_pass (map (fun it => returncode (snd it)) (jobs_of w jobs)) with
    | Some passed =>
        (Ok passed,
         drained w jobs
           (wait_events log_directory (jobs_of w jobs)
              ++ [report_line w log_directory name (jobs_of w jobs) passed]))
    | None => (Raise IndexError, drained w jobs [])
    end.
Proof.
  unfold wait_and_report, wait_jobs, timing, wait_jobs2.
  unfold bind at 1. unfold bind at 1. unfold time_time at 1.
  unfold bind at 1. unfold bind at 1. unfold items at 1.
  unfold bind at 1. rewrite wait_each_spec. simpl.
  set (its := jobs_of w jobs).
  destruct its as [|[n0 j0] [|[n1 j1] its]]; simpl.
  - unfold drained. simpl. now rewrite !app_nil_r.
  - unfold bind, index, emit, ret; simpl.
    unfold drained, report_line. simpl. rewrite <- !app_assoc. reflexivity.
  - unfold bind, index, emit, ret; simpl.
    destruct all_pass; destruct (returncode j0 =? 0); simpl;
      unfold drained, report_line; simpl; rewrite <- ?app_assoc; reflexivity.
Qed.

Lemma wait_jobs_spec log_directory jobs (w : World) :
  wait_jobs log_directory jobs w
  = (Ok (map (fun it => (snd it, returncode (snd it))) (jobs_of w jobs),
         elapsed_ms (wall_clock (trace w))
                    (wall_clock (trace w ++ wait_events log_directory (jobs_of w jobs)))),
     drained w jobs (wait_events log_directory (jobs_of w jobs))).
Proof.
  unfold wait_jobs, timing, wait_jobs2.
  unfold bind at 1. unfold time_time at 1.
  unfold bind at 1. unfold bind at 1. unfold items at 1.
  unfold bind at 1. rewrite wait_each_spec. reflexivity.
Qed.

Lemma jobs_of_drained (w : World) jobs evs : jobs_of (drained w jobs evs) jobs = [].
Proof. unfold jobs_of, drained. simpl. now rewrite lookup_insert_eq. Qed.

Lemma verdict_nonempty all_pass (codes : list Z) :
  codes <> [] -> exists passed, verdict all_pass codes = Some passed.
Proof. destruct codes as [|c0 [|c1 codes]]; [congruence | simpl; eauto ..]. Qed.

(** C1. On a job set of one job the verdict is true exactly when that job
    exited with 0. On a job set of two jobs it is true exactly when both
    exited with 0 under the all-must-pass policy, and exactly when at
    least one did otherwise. *)
Theorem wait_and_report_verdict name log_directory jobs all_pass (w : World) :
  (forall n j,
      jobs_of w jobs = [(n, j)] ->
      exists passed,
        fst (wait_and_report name log_directory jobs all_pass w) = Ok passed
        /\ (passed = true <-> returncode j = 0))
  /\ (forall n0 j0 n1 j1,
      jobs_of w jobs = [(n0, j0); (n1, j1)] ->
      exists passed,
        fst (wait_and_report name log_directory jobs all_pass w) = Ok passed
        /\ (all_pass = true ->
            (passed = true <-> returncode j0 = 0 /\ returncode j1 = 0))
        /\ (all_pass = false ->
            (passed = true <-> returncode j0 = 0 \/ returncode j1 = 0))).
Proof.
  split.
  - intros n j Hjobs. rewrite wait_and_report_spec, Hjobs. simpl.
    eexists. split; [reflexivity|]. apply Z.eqb_eq.
  - intros n0 j0 n1 j1 Hjobs. rewrite wait_and_report_spec, Hjobs. simpl.
    eexists. split; [reflexivity|]. split; intros ->.
    + rewrite andb_true_iff, !Z.eqb_eq. tauto.
    + rewrite orb_true_iff, !Z.eqb_eq. tauto.
Qed.

(** C6. Waiting on a job set that is not empty returns a verdict and
    leaves the job set of the caller empty, whatever the verdict. *)
Theorem wait_and_report_drains name log_directory jobs all_pass (w : World) :
  jobs_of w jobs <> [] ->
  exists passed w',
    wait_and_report name log_directory jobs all_pass w = (Ok passed, w')
    /\ heap w' !! jobs = Some []
    /\ jobs_of w' jobs = [].
Proof.
  intros Hne. rewrite wait_and_report_spec.
  destruct (verdict_nonempty all_pass
              (map (fun it => returncode (snd it)) (jobs_of w jobs))) as [passed ->].
  { destruct (jobs_of w jobs); [congruence | discriminate]. }
  do 2 eexists. split; [reflexivity|]. split.
  - unfold drained. simpl. apply lookup_insert_eq.
  - apply jobs_of_drained.
Qed.

(** C10. On an empty job set the status list is empty and the waiter
    raises [IndexError] instead of returning a verdict; on any other job
    set it returns one. *)
Theorem wait_and_report_empty name log_directory jobs all_pass (w : World) :
  (jobs_of w jobs = [] ->
   (exists duration w1, wait_jobs log_directory jobs w = (Ok ([], duration), w1))
   /\ exists w', wait_and_report name log_directory jobs all_pass w
                 = (Raise IndexError, w'))
  /\ (jobs_of w jobs <> [] ->
      exists passed w',
        wait_and_report name log_directory jobs all_pass w = (Ok passed, w')).
Proof.
  split.
  - intros Hempty. split.
    + rewrite wait_jobs_spec, Hempty. simpl. eauto.
    + rewrite wait_and_report_spec, Hempty. simpl. eauto.
  - intros Hne. rewrite wait_and_report_spec.
    destruct (verdict_nonempty all_pass
                (map (fun it => returncode (snd it)) (jobs_of w jobs))) as [passed ->].
    { destruct (jobs_of w jobs); [congruence | discriminate]. }
    eauto.
Qed.

(** *** The stage builders *)

Lemma stage_outcome_spec (w : World) test_name log_directory all_pass sched its passed :
  verdict all_pass (map (fun it => returncode (snd it)) its) = Some passed ->
  stage_outcome w test_name log_directory all_pass sched its
  = (Ok passed,
     mkWorld (length its + next_pid w) (S (next_ref w))
             (<[next_ref w := []]> (heap w)) (dirs w)
             (trace w ++ sched ++ wait_events log_directory its
                ++ [EvPrint passed
                      (elapsed_ms
                         (wall_clock (trace w ++ sched))
                         (wall_clock ((trace w ++ sched) ++ wait_events log_directory its)))
                      test_name])).
Proof.
  intros Hv. unfold stage_outcome. rewrite wait_and_report_spec.
  unfold jobs_of. simpl. rewrite lookup_insert_eq. simpl. rewrite Hv.
  unfold drained, report_line. simpl.
  rewrite insert_insert_eq, <- !app_assoc. reflexivity.
Qed.

Ltac run_stage :=
  unfold bind, new_dict, remote_checkout, remote_compile, remote_run, remote_cleanup,
    popen, setitem, sleep, emit, ret, stage_outcome, jobs_of;
  simpl;
  repeat (rewrite ?lookup_insert_eq, ?insert_insert_eq, ?eqb_append_stem; simpl);
  rewrite <- ?app_assoc; simpl.

Lemma job_checkout_outcome repository branch server client enable_nfs log_directory
    (w : World) :
  job_checkout repository branch server client enable_nfs log_directory w
  = stage_outcome w "checkout" log_directory true
      (EvPopen (next_pid w) (ssh_cmd server (checkout_cmd repository branch))
         :: if enable_nfs then []
            else [EvPopen (S (next_pid w)) (ssh_cmd client (checkout_cmd repository branch))])
      (("checkout-server-" +:+ server, next_pid w)
         :: if enable_nfs then [] else [("checkout-client-" +:+ client, S (next_pid w))]).
Proof.
  unfold job_checkout. destruct enable_nfs; run_stage; reflexivity.
Qed.

Lemma job_compile_outcome repository libos (is_debug : bool) server client
    (enable_nfs : bool) log_directory (w : World) :
  let test_name := "compile-" +:+ (if is_debug then "debug" else "release") in
  let cmd := compile_cmd repository ("all LIBOS=" +:+ libos) is_debug in
  job_compile repository libos is_debug server client enable_nfs log_directory w
  = stage_outcome w test_name log_directory true
      (EvPopen (next_pid w) (ssh_cmd server cmd)
         :: if enable_nfs then [] else [EvPopen (S (next_pid w)) (ssh_cmd client cmd)])
      ((test_name +:+ "-server-" +:+ server, next_pid w)
         :: if enable_nfs then []
            else [(test_name +:+ "-client-" +:+ client, S (next_pid w))]).
Proof.
  unfold job_compile. destruct enable_nfs, is_debug; run_stage; reflexivity.
Qed.

Lemma job_cleanup_outcome repository server client is_sudo (enable_nfs : bool)
    log_directory (w : World) :
  let cmd := cleanup_cmd repository is_sudo "dev" in
  job_cleanup repository server client is_sudo enable_nfs log_directory w
  = stage_outcome w "cleanup" log_directory true
      (EvPopen (next_pid w) (ssh_cmd server cmd)
         :: if enable_nfs then [] else [EvPopen (S (next_pid w)) (ssh_cmd client cmd)])
      (("cleanup-server-" +:+ server, next_pid w)
         :: if enable_nfs then []
            else [("cleanup-client-" +:+ client +:+ "-", S (next_pid w))]).
Proof.
  unfold job_cleanup. destruct enable_nfs; run_stage; reflexivity.
Qed.

Lemma job_test_unit_rust_outcome repo libos is_debug server client is_sudo config_path
    log_directory (w : World) :
  job_test_unit_rust repo libos is_debug server client is_sudo config_path
                     log_directory w
  = stage_outcome w "unit-test" log_directory true
      [EvPopen (next_pid w)
         (ssh_cmd server
            (run_cmd repo is_debug ("test-unit-rust LIBOS=" +:+ libos) is_sudo config_path))]
      [("unit-test-server-" +:+ server, next_pid w)].
Proof. unfold job_test_unit_rust. run_stage. reflexivity. Qed.

Lemma job_test_integration_tcp_rust_outcome repo libos is_debug server client
    server_addr client_addr is_sudo config_path log_directory (w : World) :
  job_test_integration_tcp_rust repo libos is_debug server client server_addr
                                client_addr is_sudo config_path log_directory w
  = stage_outcome w "integration-test" log_directory true
      [EvPopen (next_pid w)
         (ssh_cmd server
            (run_cmd repo is_debug (tcp_cmd libos (tcp_server_args server_addr client_addr))
                     is_sudo config_path));
       EvPopen (S (next_pid w))
         (ssh_cmd client
            (run_cmd repo is_debug (tcp_cmd libos (tcp_client_args server_addr client_addr))
                     is_sudo config_path))]
      [("integration-test-server-" +:+ server, next_pid w);
       ("integration-test-client-" +:+ client, S (next_pid w))].
Proof. unfold job_test_integration_tcp_rust. run_stage. reflexivity. Qed.

Lemma job_test_integration_pipe_rust_outcome repo libos is_debug run_mode server client
    server_addr delay is_sudo config_path log_directory (w : World) :
  let test_name := "integration-test-" +:+ run_mode in
  let server_launch :=
    EvPopen (next_pid w)
      (ssh_cmd server
         (run_cmd repo is_debug (pipe_cmd libos (pipe_args "server" server_addr run_mode))
                  is_sudo config_path)) in
  let client_launch :=
    EvPopen (S (next_pid w))
      (ssh_cmd client
         (run_cmd repo is_debug (pipe_cmd libos (pipe_args "client" server_addr run_mode))
                  is_sudo config_path)) in
  job_test_integration_pipe_rust repo libos is_debug run_mode server client server_addr
                                 delay is_sudo config_path log_directory w
  = if String.eqb run_mode "standalone" then
      stage_outcome w test_name log_directory true [server_launch]
        [(test_name +:+ "-server-" +:+ server, next_pid w)]
    else if sleep_accepts delay then
      stage_outcome w test_name log_directory true
        [server_launch; EvSleep delay; client_launch]
        [(test_name +:+ "-server-" +:+ server, next_pid w);
         (test_name +:+ "-client-" +:+ client, S (next_pid w))]
    else
      (Raise (sleep_error delay),
       mkWorld (S (next_pid w)) (S (next_ref w))
               (<[next_ref w := [(test_name +:+ "-server-" +:+ server, next_pid w)]]>
                  (heap w))
               (dirs w) (trace w ++ [server_launch])).
Proof.
  unfold job_test_integration_pipe_rust.
  destruct (String.eqb run_mode "standalone") eqn:Hmode.
  - run_stage. reflexivity.
  - destruct (sleep_accepts delay) eqn:Hsleep.
    + run_stage. rewrite Hsleep. run_stage. reflexivity.
    + run_stage. rewrite Hsleep. run_stage. reflexivity.
Qed.

Lemma job_test_system_rust_outcome test_alias test_name repo libos is_debug server
    client server_args client_args is_sudo all_pass delay config_path log_directory
    (w : World) :
  let target args :=
    "test-system-rust LIBOS=" +:+ libos +:+ " TEST=" +:+ test_name +:+ " "
      +:+ quoted_args args in
  let server_launch :=
    EvPopen (next_pid w)
      (ssh_cmd server (run_cmd repo is_debug (target server_args) is_sudo config_path)) in
  let client_launch :=
    EvPopen (S (next_pid w))
      (ssh_cmd client (run_cmd repo is_debug (target client_args) is_sudo config_path)) in
  job_test_system_rust test_alias test_name repo libos is_debug server client
                       server_args client_args is_sudo all_pass delay config_path
                       log_directory w
  = if sleep_accepts delay then
      stage_outcome w test_alias log_directory all_pass
        [server_launch; EvSleep delay; client_launch]
        [(test_alias +:+ "-server-" +:+ server, next_pid w);
         (test_alias +:+ "-client-" +:+ client, S (next_pid w))]
    else
      (Raise (sleep_error delay),
       mkWorld (S (next_pid w)) (S (next_ref w))
               (<[next_ref w := [(test_alias +:+ "-server-" +:+ server, next_pid w)]]>
                  (heap w))
               (dirs w) (trace w ++ [server_launch])).
Proof.
  unfold job_test_system_rust.
  destruct (sleep_accepts delay) eqn:Hsleep.
  - run_stage. rewrite Hsleep. run_stage. reflexivity.
  - run_stage. rewrite Hsleep. run_stage. reflexivity.
Qed.

(** *** Histories *)


Lemma launches_app (tr1 tr2 : list event) :
  launches (tr1 ++ tr2) = launches tr1 ++ launches tr2.
Proof.
  induction tr1 as [|e tr1 IH]; simpl; [reflexivity|].
  destruct e; simpl; now rewrite ?IH.
Qed.

Lemma waited_app (tr1 tr2 : list event) :
  waited (tr1 ++ tr2) = waited tr1 ++ waited tr2.
Proof.
  induction tr1 as [|e tr1 IH]; simpl; [reflexivity|].
  destruct e; simpl; now rewrite ?IH.
Qed.


Lemma launches_wait_events log_directory its :
  launches (wait_events log_directory its) = [].
Proof. induction its as [|it its IH]; simpl; auto. Qed.

Lemma waited_wait_events log_directory its :
  waited (wait_events log_directory its) = map snd its.
Proof. induction its as [|it its IH]; simpl; [reflexivity|]. now rewrite IH. Qed.

(** A stage whose job set has the processes it launched, in the order of
    their launch. *)
Lemma stage_outcome_jobs (w : World) test_name log_directory all_pass sched its :
  its <> [] ->
  waited sched = [] ->
  length (launches sched) = length its ->
  map snd its = seq (next_pid w) (length its) ->
  stage_jobs (fun w => stage_outcome w test_name log_directory all_pass sched its) w
             (launches sched).
Proof.
  intros Hne Hwaited Hlen Hpids.
  destruct (verdict_nonempty all_pass (map (fun it => returncode (snd it)) its))
    as [passed Hv].
  { destruct its; [congruence | discriminate]. }
  unfold stage_jobs. rewrite (stage_outcome_spec _ _ _ _ _ _ _ Hv).
  do 3 eexists. split; [reflexivity|]. split; [reflexivity|].
  rewrite !launches_app, !waited_app, launches_wait_events, waited_wait_events.
  simpl. rewrite Hwaited, !app_nil_r, Hlen. auto.
Qed.

Lemma job_checkout_jobs repository branch server client (enable_nfs : bool)
    log_directory (w : World) :
  stage_jobs (job_checkout repository branch server client enable_nfs log_directory) w
    (ssh_cmd server (checkout_cmd repository branch)
       :: if enable_nfs then [] else [ssh_cmd client (checkout_cmd repository branch)]).
Proof.
  unfold stage_jobs. rewrite job_checkout_outcome.
  destruct enable_nfs; simpl;
    apply (stage_outcome_jobs w); simpl; congruence || reflexivity.
Qed.

Lemma job_compile_jobs repository libos (is_debug : bool) server client
    (enable_nfs : bool) log_directory (w : World) :
  stage_jobs
    (job_compile repository libos is_debug server client enable_nfs log_directory) w
    (ssh_cmd server (compile_cmd repository ("all LIBOS=" +:+ libos) is_debug)
       :: if enable_nfs then []
          else [ssh_cmd client (compile_cmd repository ("all LIBOS=" +:+ libos) is_debug)]).
Proof.
  pose proof (job_compile_outcome repository libos is_debug server client enable_nfs
                log_directory w) as Hout.
  cbv zeta in Hout. unfold stage_jobs. rewrite Hout.
  destruct enable_nfs; simpl;
    apply (stage_outcome_jobs w); simpl; congruence || reflexivity.
Qed.

Lemma job_cleanup_jobs repository server client is_sudo (enable_nfs : bool)
    log_directory (w : World) :
  stage_jobs (job_cleanup repository server client is_sudo enable_nfs log_directory) w
    (ssh_cmd server (cleanup_cmd repository is_sudo "dev")
       :: if enable_nfs then [] else [ssh_cmd client (cleanup_cmd repository is_sudo "dev")]).
Proof.
  pose proof (job_cleanup_outcome repository server client is_sudo enable_nfs
                log_directory w) as Hout.
  cbv zeta in Hout. unfold stage_jobs. rewrite Hout.
  destruct enable_nfs; simpl;
    apply (stage_outcome_jobs w); simpl; congruence || reflexivity.
Qed.

(** C9. The checkout, compile and cleanup stages each return a verdict
    after launching their command on the server and, unless the shared
    file system is enabled, on the client: one job with it, two without. *)
Theorem nfs_participation repository branch libos (is_debug : bool) server client
    is_sudo (enable_nfs : bool) log_directory (w : World) :
  stage_jobs (job_checkout repository branch server client enable_nfs log_directory) w
    (ssh_cmd server (checkout_cmd repository branch)
       :: if enable_nfs then [] else [ssh_cmd client (checkout_cmd repository branch)])
  /\ stage_jobs
       (job_compile repository libos is_debug server client enable_nfs log_directory) w
       (ssh_cmd server (compile_cmd repository ("all LIBOS=" +:+ libos) is_debug)
          :: if enable_nfs then []
             else [ssh_cmd client (compile_cmd repository ("all LIBOS=" +:+ libos) is_debug)])
  /\ stage_jobs
       (job_cleanup repository server client is_sudo enable_nfs log_directory) w
       (ssh_cmd server (cleanup_cmd repository is_sudo "dev")
          :: if enable_nfs then [] else [ssh_cmd client (cleanup_cmd repository is_sudo "dev")]).
Proof.
  split; [|split].
  - apply job_checkout_jobs.
  - apply job_compile_jobs.
  - apply job_cleanup_jobs.
Qed.

Lemma append_assoc (a b c : string) : (a +:+ b) +:+ c = a +:+ b +:+ c.
Proof.
  induction a as [|x a IH]; [reflexivity|].
  change (String x ((a +:+ b) +:+ c) = String x (a +:+ b +:+ c)).
  now rewrite IH.
Qed.

(** C7. The TCP integration stage launches the server job and then the
    client job with no sleep between them, and passes exactly when both
    exit with 0. The two jobs get mirrored addresses: the local endpoint
    of the server, [server_addr:12345], is the remote endpoint of the
    client, and the remote endpoint of the server, [client_addr:23456],
    is the local endpoint of the client. *)
Theorem tcp_stage_mirrored repo libos is_debug server client server_addr client_addr
    is_sudo config_path log_directory (w : World) :
  let server_endpoint := server_addr +:+ ":12345" in
  let client_endpoint := client_addr +:+ ":23456" in
  let command host args :=
    ssh_cmd host (run_cmd repo is_debug (tcp_cmd libos args) is_sudo config_path) in
  (exists passed w' added,
      job_test_integration_tcp_rust repo libos is_debug server client server_addr
        client_addr is_sudo config_path log_directory w = (Ok passed, w')
      /\ trace w' = trace w ++ added
      /\ schedule added
         = [EvPopen (next_pid w) (command server (tcp_server_args server_addr client_addr));
            EvPopen (S (next_pid w))
              (command client (tcp_client_args server_addr client_addr))]
      /\ waited added = [next_pid w; S (next_pid w)]
      /\ (passed = true <->
          returncode (next_pid w) = 0 /\ returncode (S (next_pid w)) = 0))
  /\ tcp_server_args server_addr client_addr
     = address_args server_endpoint client_endpoint
  /\ tcp_client_args server_addr client_addr
     = address_args client_endpoint server_endpoint.
Proof.
  cbv zeta. split; [|split].
  - rewrite job_test_integration_tcp_rust_outcome.
    erewrite stage_outcome_spec by reflexivity.
    do 3 eexists. split; [reflexivity|]. split; [reflexivity|]. simpl.
    split; [reflexivity|]. split; [reflexivity|].
    rewrite andb_true_iff, !Z.eqb_eq. tauto.
  - unfold tcp_server_args, address_args. now rewrite !append_assoc.
  - unfold tcp_client_args, address_args. now rewrite !append_assoc.
Qed.


(** *** The pipeline *)

Lemma bind_ok {A B} (m : M A) (f : A -> M B) (w w1 : World) a :
  m w = (Ok a, w1) -> bind m f w = f a w1.
Proof. intros H. unfold bind. now rewrite H. Qed.

Lemma bind_Ok_inv {A B} (m : M A) (f : A -> M B) (w w' : World) b :
  bind m f w = (Ok b, w') ->
  exists a w1, m w = (Ok a, w1) /\ f a w1 = (Ok b, w').
Proof.
  unfold bind. destruct (m w) as [[a|e] w1]; intros H.
  - eauto.
  - discriminate.
Qed.

Lemma append_neq_self (s t : string) : t <> EmptyString -> s <> s +:+ t.
Proof.
  intros Ht. induction s as [|c s IH].
  - intros H. apply Ht. symmetry. exact H.
  - intros H. apply IH. change (String c s = String c (s +:+ t)) in H. congruence.
Qed.

(** The log directory is always made: after the rotation it does not
    exist when [mkdir] is reached. *)
Lemma rotate_logs_ok log_directory (w : World) :
  exists w0, rotate_logs log_directory w = (Ok tt, w0).
Proof.
  assert (Hmoved : forall D : gset string,
             log_directory ∉ {[log_directory +:+ ".old"]} ∪ D ∖ {[log_directory]}).
  { intros D [Hold|Hrest]%elem_of_union.
    - apply elem_of_singleton in Hold. revert Hold.
      apply append_neq_self. discriminate.
    - apply elem_of_difference in Hrest as [_ Hrest].
      apply Hrest. now apply elem_of_singleton. }
  unfold rotate_logs, bind, isdir, rmtree, move, mkdir, ret. simpl.
  destruct (bool_decide (log_directory ∈ dirs w)) eqn:Hlog; simpl.
  - destruct (bool_decide (log_directory +:+ ".old" ∈ dirs w)); simpl;
      rewrite (bool_decide_eq_false_2 _ (Hmoved _)); eauto.
  - rewrite Hlog. eauto.
Qed.


Lemma gate_open (status : list (string * bool)) (w : World) :
  dict_get "checkout" status = Some true ->
  dict_get "compile" status = Some true ->
  gate status w = (Ok true, w).
Proof. intros H1 H2. unfold gate, bind, getitem. rewrite H1. simpl. now rewrite H2. Qed.

Lemma false_in_spec (values : list bool) : false_in values = true <-> In false values.
Proof.
  unfold false_in. rewrite existsb_exists. split.
  - intros [[|] [Hin Hneg]]; [discriminate | assumption].
  - intros Hin. exists false. auto.
Qed.

(** C3. When the pipeline returns its status mapping, the driver exits
    with 0 exactly when no recorded value is false, and with a status
    that is not 0 as soon as one is. *)
Theorem exit_status (args : Namespace float) (w w' : World) status :
  run_pipeline (arg_repository args) (arg_branch args) (arg_libos args)
    (arg_debug args) (arg_server args) (arg_client args) (arg_test_unit args)
    (arg_test_system args) (arg_server_addr args) (arg_client_addr args)
    (arg_delay args) (arg_config_path args) (arg_output_dir args)
    (arg_enable_nfs args) w = (Ok status, w') ->
  exists code,
    main args w = (Raise (SystemExit code), w')
    /\ (process_exit_code (SystemExit code) = 0 <-> ~ In false (dict_values status))
    /\ (In false (dict_values status) -> process_exit_code (SystemExit code) <> 0).
Proof.
  intros Hrun. unfold main. rewrite (bind_ok _ _ _ _ _ Hrun).
  destruct (false_in (dict_values status)) eqn:Hfalse.
  - apply false_in_spec in Hfalse. exists (-1). split; [reflexivity|].
    simpl. split; [split; [discriminate | tauto] | discriminate].
  - assert (Hnot : ~ In false (dict_values status)).
    { intros Hin. apply false_in_spec in Hin. congruence. }
    exists 0. split; [reflexivity|]. simpl. tauto.
Qed.

Lemma stage_jobs_ok (stage : M bool) (w : World) cmds :
  stage_jobs stage w cmds -> exists passed w', stage w = (Ok passed, w').
Proof. intros (passed & w' & added & H & _). eauto. Qed.

(** C2. Every status mapping the pipeline returns has the [cleanup] key.
    When the checkout stage records false, the pipeline still returns,
    and its mapping holds [checkout] and [cleanup] only: [compile],
    [unit_tests], [integration_tests] and the key of every system test
    are absent. *)
Theorem checkout_gate repository branch libos is_debug server client test_unit
    test_system server_addr client_addr delay config_path output_dir enable_nfs
    (w : World) :
  let log_directory := log_directory_of output_dir libos branch is_debug in
  let pipeline :=
    run_pipeline repository branch libos is_debug server client test_unit test_system
      server_addr client_addr delay config_path output_dir enable_nfs in
  (forall status w',
      pipeline w = (Ok status, w') -> is_Some (dict_get "cleanup" status))
  /\ (fst (job_checkout repository branch server client enable_nfs log_directory
             (snd (rotate_logs log_directory w))) = Ok false ->
      exists status w',
        pipeline w = (Ok status, w')
        /\ dict_keys status = ["checkout"; "cleanup"]
        /\ dict_get "checkout" status = Some false
        /\ is_Some (dict_get "cleanup" status)
        /\ dict_get "compile" status = None
        /\ dict_get "unit_tests" status = None
        /\ dict_get "integration_tests" status = None
        /\ forall name,
            name <> "checkout" -> name <> "cleanup" -> dict_get name status = None).
Proof.
  cbv zeta. split.
  - intros status w' Hrun. unfold run_pipeline in Hrun.
    repeat (apply bind_Ok_inv in Hrun; destruct Hrun as (? & ? & _ & Hrun)).
    unfold ret in Hrun. injection Hrun as <- _.
    rewrite dict_get_set_eq. eauto.
  - intros Hcheckout.
    destruct (rotate_logs_ok (log_directory_of output_dir libos branch is_debug) w)
      as [w0 Hrot].
    rewrite Hrot in Hcheckout. simpl in Hcheckout.
    destruct (job_checkout repository branch server client enable_nfs
                (log_directory_of output_dir libos branch is_debug) w0)
      as [r w1] eqn:Hco.
    simpl in Hcheckout. subst r.
    destruct (stage_jobs_ok _ _ _
                (job_cleanup_jobs repository server client (is_sudo_of libos)
                   enable_nfs (log_directory_of output_dir libos branch is_debug) w1))
      as (cleaned & w2 & Hclean).
    exists [("checkout", false); ("cleanup", cleaned)], w2.
    split.
    + unfold run_pipeline.
      rewrite (bind_ok _ _ _ _ _ Hrot), (bind_ok _ _ _ _ _ Hco).
      unfold unit_stage, system_stage.
      destruct test_unit, (truthy test_system);
        unfold bind, gate, getitem, ret; simpl; unfold bind; 
        rewrite Hclean; reflexivity.
    + repeat split; eauto.
      intros name Hn1 Hn2. cbn [dict_get].
      apply String.eqb_neq in Hn1, Hn2.
      rewrite String.eqb_sym in Hn1. rewrite String.eqb_sym in Hn2.
      now rewrite Hn1, Hn2.
Qed.

Lemma job_test_unit_rust_ok repo libos is_debug server client is_sudo config_path
    log_directory (w : World) :
  exists passed w',
    job_test_unit_rust repo libos is_debug server client is_sudo config_path
                       log_directory w = (Ok passed, w').
Proof.
  rewrite job_test_unit_rust_outcome.
  erewrite stage_outcome_spec by reflexivity. eauto.
Qed.

Lemma job_test_integration_pipe_rust_ok repo libos is_debug run_mode server client
    server_addr delay is_sudo config_path log_directory (w : World) :
  sleep_accepts delay = true ->
  exists passed w',
    job_test_integration_pipe_rust repo libos is_debug run_mode server client
      server_addr delay is_sudo config_path log_directory w = (Ok passed, w').
Proof.
  intros Hsleep.
  pose proof (job_test_integration_pipe_rust_outcome repo libos is_debug run_mode
                server client server_addr delay is_sudo config_path log_directory w)
    as Hout.
  cbv zeta in Hout. rewrite Hout, Hsleep.
  destruct (String.eqb run_mode "standalone");
    erewrite stage_outcome_spec by reflexivity; eauto.
Qed.



(** *** Further properties of the driver *)

Lemma replace_slash_length s : String.length (replace_slash s) = String.length s.
Proof. induction s as [|c s IH]; simpl; congruence. Qed.

Lemma replace_slash_get s : forall i,
  String.get i (replace_slash s)
  = match String.get i s with
    | Some c => Some (if Ascii.eqb c "/"%char then "_"%char else c)
    | None => None
    end.
Proof.
  induction s as [|c s IH]; intros i; simpl; [reflexivity|].
  destruct i as [|i]; [reflexivity|]. apply IH.
Qed.

(** X1. The log directory is [output_dir], a slash and one name. The name
    has the length of [<libos>-<branch>-<debug|release>] and no slash in
    it: a slash of that text is an underscore in the name, and every
    other character is kept in its place. A branch such as [feature/x]
    therefore never makes a nested directory. *)
Theorem log_directory_flat output_dir libos branch (is_debug : bool) :
  let raw :=
    libos +:+ "-" +:+ branch +:+ "-" +:+ (if is_debug then "debug" else "release") in
  exists name,
    log_directory_of output_dir libos branch is_debug = output_dir +:+ "/" +:+ name
    /\ String.length name = String.length raw
    /\ forall i,
        String.get i name <> Some "/"%char
        /\ (String.get i raw = Some "/"%char -> String.get i name = Some "_"%char)
        /\ (forall c, String.get i raw = Some c -> c <> "/"%char ->
                      String.get i name = Some c).
Proof.
  cbv zeta. eexists. split; [reflexivity|]. split; [apply replace_slash_length|].
  intros i. rewrite replace_slash_get.
  destruct (String.get i _) as [c|]; [|repeat split; intros; discriminate].
  destruct (Ascii.eqb_spec c "/"%char) as [->|Hc].
  - repeat split; intros; try discriminate; congruence.
  - repeat split.
    + intros H. injection H as H. contradiction.
    + intros H. injection H as H. contradiction.
    + intros c' H Hc'. congruence.
Qed.

Lemma written_app (tr1 tr2 : list event) :
  written (tr1 ++ tr2) = written tr1 ++ written tr2.
Proof.
  induction tr1 as [|e tr1 IH]; simpl; [reflexivity|].
  destruct e; simpl; now rewrite ?IH.
Qed.

Lemma printed_app (tr1 tr2 : list event) :
  printed (tr1 ++ tr2) = printed tr1 ++ printed tr2.
Proof.
  induction tr1 as [|e tr1 IH]; simpl; [reflexivity|].
  destruct e; simpl; now rewrite ?IH.
Qed.

Lemma schedule_app (tr1 tr2 : list event) :
  schedule (tr1 ++ tr2) = schedule tr1 ++ schedule tr2.
Proof. apply filter_app. Qed.

Lemma schedule_wait_events log_directory its :
  schedule (wait_events log_directory its) = [].
Proof. induction its as [|it its IH]; simpl; auto. Qed.

Lemma written_wait_events log_directory its :
  written (wait_events log_directory its) = flat_map (log_files log_directory) its.
Proof. induction its as [|it its IH]; simpl; [reflexivity|]. now rewrite IH. Qed.

Lemma printed_wait_events log_directory its :
  printed (wait_events log_directory its) = [].
Proof. induction its as [|it its IH]; simpl; auto. Qed.

(** X3. The reducer reads the first two exit codes only. On a job set of
    three or more jobs the verdict is the one of its first two jobs, so a
    job after the second that fails does not fail the stage; every job is
    still waited for and logged. *)
Theorem wait_and_report_first_two name log_directory jobs all_pass (w : World)
    it0 it1 it2 rest :
  jobs_of w jobs = it0 :: it1 :: it2 :: rest ->
  exists w' added,
    wait_and_report name log_directory jobs all_pass w
    = (Ok (if all_pass
           then (returncode (snd it0) =? 0) && (returncode (snd it1) =? 0)
           else (returncode (snd it0) =? 0) || (returncode (snd it1) =? 0)), w')
    /\ trace w' = trace w ++ added
    /\ waited added = map snd (it0 :: it1 :: it2 :: rest)
    /\ written added = flat_map (log_files log_directory) (it0 :: it1 :: it2 :: rest).
Proof.
  intros Hjobs. rewrite wait_and_report_spec, Hjobs.
  cbn [map verdict]. do 2 eexists. split; [reflexivity|].
  unfold drained. cbn [trace]. split; [reflexivity|].
  rewrite waited_app, written_app, waited_wait_events, written_wait_events.
  cbn [waited written report_line]. now rewrite !app_nil_r.
Qed.

(** X4. The waiter touches nothing but the job set it is given and the
    history: whatever its outcome, it launches no process, never sleeps,
    leaves every other job set and the directories as they were, and only
    adds to the history. On an empty job set it adds nothing at all: no
    file and no report line. *)
Theorem wait_and_report_frame name log_directory jobs all_pass (w : World) :
  let w' := snd (wait_and_report name log_directory jobs all_pass w) in
  next_pid w' = next_pid w
  /\ dirs w' = dirs w
  /\ (forall other, other <> jobs -> heap w' !! other = heap w !! other)
  /\ (exists added,
         trace w' = trace w ++ added
         /\ schedule added = []
         /\ (jobs_of w jobs = [] -> added = [])).
Proof.
  cbv zeta. rewrite wait_and_report_spec.
  destruct (verdict all_pass _) as [passed|] eqn:Hv; unfold drained; cbn [snd];
    cbn [next_pid dirs heap trace];
    (split; [reflexivity|]); (split; [reflexivity|]);
    (split; [intros other Hne; now apply lookup_insert_ne|]).
  - eexists. split; [reflexivity|]. split.
    + now rewrite schedule_app, schedule_wait_events.
    + intros Hempty. rewrite Hempty in Hv. discriminate.
  - exists []. split; [now rewrite app_nil_r|]. split; reflexivity.
Qed.

(** X5. The unit test stage runs on the server only. It launches one
    process, the unit test command on the server, waits for it, writes its
    two log files and reports under [unit-test]; the verdict is true
    exactly when that process exits with 0. The client takes no part: the
    stage does the same whatever the client is. *)
Theorem unit_test_server_only repo libos is_debug server client is_sudo config_path
    log_directory (w : World) :
  let stage client :=
    job_test_unit_rust repo libos is_debug server client is_sudo config_path
                       log_directory in
  let passed := returncode (next_pid w) =? 0 in
  (exists w' added,
      stage client w = (Ok passed, w')
      /\ trace w' = trace w ++ added
      /\ schedule added
         = [EvPopen (next_pid w)
              (ssh_cmd server
                 (run_cmd repo is_debug ("test-unit-rust LIBOS=" +:+ libos) is_sudo
                          config_path))]
      /\ waited added = [next_pid w]
      /\ map fst (written added)
         = [log_directory +:+ "/unit-test-server-" +:+ server +:+ ".stdout.txt";
            log_directory +:+ "/unit-test-server-" +:+ server +:+ ".stderr.txt"]
      /\ printed added = [(passed, "unit-test")])
  /\ forall other_client, stage other_client w = stage client w.
Proof.
  cbv zeta. split.
  - rewrite job_test_unit_rust_outcome.
    erewrite stage_outcome_spec by reflexivity.
    do 2 eexists. split; [reflexivity|]. split; [reflexivity|].
    repeat split.
  - intros other_client. now rewrite !job_test_unit_rust_outcome.
Qed.

(** X6. A system test job launches the server command, sleeps for the
    delay, launches the client command and waits for both, with a delay
    that [time.sleep] takes. Under the all-pass policy it passes exactly
    when both processes exit with 0, and otherwise as soon as one of them
    does. It reports once, under the alias of the test. *)
Theorem system_job_policy test_alias test_name repo libos is_debug server client
    server_args client_args is_sudo (all_pass : bool) delay config_path log_directory
    (w : World) :
  let target args :=
    "test-system-rust LIBOS=" +:+ libos +:+ " TEST=" +:+ test_name +:+ " "
      +:+ quoted_args args in
  let command host args :=
    ssh_cmd host (run_cmd repo is_debug (target args) is_sudo config_path) in
  let server_passed := returncode (next_pid w) =? 0 in
  let client_passed := returncode (S (next_pid w)) =? 0 in
  let passed :=
    if all_pass then server_passed && client_passed
    else server_passed || client_passed in
  sleep_accepts delay = true ->
  exists w' added,
    job_test_system_rust test_alias test_name repo libos is_debug server client
      server_args client_args is_sudo all_pass delay config_path log_directory w
    = (Ok passed, w')
    /\ trace w' = trace w ++ added
    /\ schedule added
       = [EvPopen (next_pid w) (command server server_args);
          EvSleep delay;
          EvPopen (S (next_pid w)) (command client client_args)]
    /\ waited added = [next_pid w; S (next_pid w)]
    /\ printed added = [(passed, test_alias)].
Proof.
  cbv zeta. intros Hsleep.
  pose proof (job_test_system_rust_outcome test_alias test_name repo libos is_debug
                server client server_args client_args is_sudo all_pass delay
                config_path log_directory w) as Hout.
  cbv zeta in Hout. rewrite Hout, Hsleep. clear Hout.
  erewrite stage_outcome_spec by reflexivity.
  do 2 eexists. split; [reflexivity|]. split; [reflexivity|].
  repeat split.
Qed.

Lemma job_cleanup_ok repository server client is_sudo enable_nfs log_directory
    (w : World) :
  exists cleaned w',
    job_cleanup repository server client is_sudo enable_nfs log_directory w
    = (Ok cleaned, w').
Proof. eapply stage_jobs_ok, job_cleanup_jobs. Qed.

(** X10. A failed compile closes the gate of every test stage. When the
    checkout passes and the compile records false, the cleanup starts in
    the world the compile left: no test is launched and the catalog is not
    consulted, whatever tests were requested. The pipeline returns the
    mapping of [checkout], [compile] and [cleanup] alone. *)
Theorem compile_gate repository branch libos is_debug server client test_unit
    test_system server_addr client_addr delay config_path output_dir enable_nfs
    (w w0 w1 w2 : World) :
  let log_directory := log_directory_of output_dir libos branch is_debug in
  rotate_logs log_directory w = (Ok tt, w0) ->
  job_checkout repository branch server client enable_nfs log_directory w0
  = (Ok true, w1) ->
  job_compile repository libos is_debug server client enable_nfs log_directory w1
  = (Ok false, w2) ->
  exists cleaned w',
    job_cleanup repository server client (is_sudo_of libos) enable_nfs log_directory w2
    = (Ok cleaned, w')
    /\ run_pipeline repository branch libos is_debug server client test_unit test_system
         server_addr client_addr delay config_path output_dir enable_nfs w
       = (Ok [("checkout", true); ("compile", false); ("cleanup", cleaned)], w').
Proof.
  cbv zeta. intros Hrot Hcheckout Hcompile.
  destruct (job_cleanup_ok repository server client (is_sudo_of libos) enable_nfs
              (log_directory_of output_dir libos branch is_debug) w2)
    as (cleaned & w' & Hclean).
  exists cleaned, w'. split; [exact Hclean|].
  unfold run_pipeline.
  rewrite (bind_ok _ _ _ _ _ Hrot), (bind_ok _ _ _ _ _ Hcheckout).
  cbn [dict_set]. unfold getitem at 1. cbn [dict_get String.eqb Ascii.eqb Bool.eqb].
  unfold bind at 1. unfold ret at 1. unfold bind at 1. unfold bind at 1.
  rewrite Hcompile. unfold ret at 1.
  unfold unit_stage, system_stage.
  destruct test_unit, (truthy test_system);
    unfold bind, gate, getitem, ret; simpl; unfold bind;
    rewrite Hclean; reflexivity.
Qed.

(** X11. On the synchronous-sockets runtime, when checkout and compile
    passed and the unit tests are requested, the unit stage runs the unit
    test and then the TCP integration test, whatever the verdict of the
    unit test was, and records the two verdicts under [unit_tests] and
    [integration_tests]. *)
Theorem catnap_unit_stage repository libos is_debug server client server_addr
    client_addr delay config_path is_sudo log_directory
    (status : list (string * bool)) (w : World) :
  libos = "catnap" ->
  dict_get "checkout" status = Some true ->
  dict_get "compile" status = Some true ->
  exists unit_passed w1 tcp_passed w2,
    job_test_unit_rust repository libos is_debug server client is_sudo config_path
                       log_directory w = (Ok unit_passed, w1)
    /\ job_test_integration_tcp_rust repository libos is_debug server client
         server_addr client_addr is_sudo config_path log_directory w1
       = (Ok tcp_passed, w2)
    /\ unit_stage repository libos is_debug server client true server_addr client_addr
                  delay config_path is_sudo log_directory status w
       = (Ok (dict_set "integration_tests" tcp_passed
                (dict_set "unit_tests" unit_passed status)), w2).
Proof.
  intros -> Hcheckout Hcompile.
  destruct (job_test_unit_rust_ok repository "catnap" is_debug server client is_sudo
              config_path log_directory w) as (unit_passed & w1 & Hunit).
  assert (Htcp : exists tcp_passed w2,
             job_test_integration_tcp_rust repository "catnap" is_debug server client
               server_addr client_addr is_sudo config_path log_directory w1
             = (Ok tcp_passed, w2)).
  { rewrite job_test_integration_tcp_rust_outcome.
    erewrite stage_outcome_spec by reflexivity. eauto. }
  destruct Htcp as (tcp_passed & w2 & Htcp).
  exists unit_passed, w1, tcp_passed, w2. split; [exact Hunit|]. split; [exact Htcp|].
  unfold unit_stage.
  rewrite (bind_ok _ _ _ _ _ (gate_open _ _ Hcheckout Hcompile)).
  rewrite (bind_ok _ _ _ _ _ Hunit).
  change (String.eqb "catnap" "catnap") with true. cbv iota.
  now rewrite (bind_ok _ _ _ _ _ Htcp).
Qed.

(** X12. On a runtime that is neither the synchronous-sockets nor the
    shared-memory-pipe one, the unit stage runs the unit test and nothing
    else: it ends in the world the unit test left and records
    [unit_tests] only. *)
Theorem other_runtime_unit_stage repository libos is_debug server client server_addr
    client_addr delay config_path is_sudo log_directory
    (status : list (string * bool)) (w : World) :
  libos <> "catnap" ->
  libos <> "catmem" ->
  dict_get "checkout" status = Some true ->
  dict_get "compile" status = Some true ->
  exists unit_passed w1,
    job_test_unit_rust repository libos is_debug server client is_sudo config_path
                       log_directory w = (Ok unit_passed, w1)
    /\ unit_stage repository libos is_debug server client true server_addr client_addr
                  delay config_path is_sudo log_directory status w
       = (Ok (dict_set "unit_tests" unit_passed status), w1).
Proof.
  intros Hcatnap Hcatmem Hcheckout Hcompile.
  apply String.eqb_neq in Hcatnap, Hcatmem.
  destruct (job_test_unit_rust_ok repository libos is_debug server client is_sudo
              config_path log_directory w) as (unit_passed & w1 & Hunit).
  exists unit_passed, w1. split; [exact Hunit|].
  unfold unit_stage.
  rewrite (bind_ok _ _ _ _ _ (gate_open _ _ Hcheckout Hcompile)).
  rewrite (bind_ok _ _ _ _ _ Hunit).
  now rewrite Hcatnap, Hcatmem.
Qed.

(** X13. The loop over the system tests records each test under its own
    name, as the catalog gives it, and touches no other entry: when it
    returns, every selected name has a value, and every key that is not a
    selected name has the value it had before, or none. *)
Theorem run_tests_records scaffolding ci_map test_names : forall status (w w' : World) status',
  run_tests scaffolding ci_map test_names status w = (Ok status', w') ->
  (forall name, In name test_names -> is_Some (dict_get name status'))
  /\ (forall key, ~ In key test_names -> dict_get key status' = dict_get key status).
Proof.
  induction test_names as [|test_name rest IH]; intros status w w' status' Hrun.
  - simpl in Hrun. unfold ret in Hrun. injection Hrun as <- _.
    split; [intros name [] | reflexivity].
  - simpl in Hrun.
    apply bind_Ok_inv in Hrun as (t & w1 & _ & Hrun).
    apply bind_Ok_inv in Hrun as (v & w2 & _ & Hrun).
    destruct (IH _ _ _ _ Hrun) as [Hnames Hkeys]. split.
    + intros name [<-|Hin]; [|now apply Hnames].
      destruct (in_dec string_dec test_name rest) as [Hin|Hnot].
      * now apply Hnames.
      * rewrite (Hkeys _ Hnot), dict_get_set_eq. eauto.
    + intros key Hkey. rewrite Hkeys by (intros Hin; apply Hkey; now right).
      apply dict_get_set_ne. intros <-. apply Hkey. now left.
Qed.

(** X14. A selector that names one test runs that test alone: with the
    gate open, when the system stage returns, the status mapping is the
    one before with a single entry set, under the name given on the
    command line, without any prefix. *)
Theorem single_system_test repository libos is_debug server client name server_addr
    client_addr delay config_path is_sudo log_directory
    (status status' : list (string * bool)) (w w' : World) :
  name <> EmptyString ->
  name <> "all" ->
  dict_get "checkout" status = Some true ->
  dict_get "compile" status = Some true ->
  system_stage repository libos is_debug server client (Some name) server_addr
               client_addr delay config_path is_sudo log_directory status w
  = (Ok status', w') ->
  exists passed, status' = dict_set name passed status.
Proof.
  intros Hempty Hall Hcheckout Hcompile Hrun.
  unfold system_stage in Hrun. apply String.eqb_neq in Hempty.
  cbn [truthy] in Hrun. rewrite Hempty in Hrun. cbn [negb] in Hrun.
  rewrite (bind_ok _ _ _ _ _ (gate_open _ _ Hcheckout Hcompile)) in Hrun.
  apply bind_Ok_inv in Hrun as (ci_map & w1 & _ & Hrun).
  rewrite bool_decide_eq_false_2 in Hrun by congruence.
  unfold ret at 1 in Hrun. unfold bind at 1 in Hrun.
  cbn [run_tests] in Hrun.
  apply bind_Ok_inv in Hrun as (t & w2 & _ & Hrun).
  apply bind_Ok_inv in Hrun as (passed & w3 & _ & Hrun).
  unfold ret in Hrun. injection Hrun as <- _. eauto.
Qed.

(** X15. A test stage whose gate is closed does nothing, even when its
    tests are requested: with a failed checkout, or a failed compile, the
    unit stage and the system stage return the status mapping they got in
    the world they got. The same holds for the unit stage when unit tests
    are not requested, and for the system stage when the selector is
    missing or empty. The catalog is then never consulted. *)
Theorem closed_gate_skips repository libos is_debug server client test_unit test_system
    server_addr client_addr delay config_path is_sudo log_directory
    (status : list (string * bool)) (w : World) :
  let unit_tests :=
    unit_stage repository libos is_debug server client test_unit server_addr
               client_addr delay config_path is_sudo log_directory status in
  let system_tests :=
    system_stage repository libos is_debug server client test_system server_addr
                 client_addr delay config_path is_sudo log_directory status in
  (dict_get "checkout" status = Some false
   \/ (dict_get "checkout" status = Some true /\ dict_get "compile" status = Some false) ->
   unit_tests w = (Ok status, w) /\ system_tests w = (Ok status, w))
  /\ (test_unit = false -> unit_tests w = (Ok status, w))
  /\ (test_system = None \/ test_system = Some EmptyString ->
      system_tests w = (Ok status, w)).
Proof.
  cbv zeta. split; [|split].
  - intros Hclosed.
    assert (Hgate : gate status w = (Ok false, w)).
    { unfold gate, bind, getitem.
      destruct Hclosed as [->|[-> Hcompile]]; [reflexivity|].
      cbn [ret]. now rewrite Hcompile. }
    unfold unit_stage, system_stage.
    destruct test_unit, (truthy test_system);
      rewrite ?(bind_ok _ _ _ _ _ Hgate); split; reflexivity.
  - intros ->. reflexivity.
  - intros [->| ->]; reflexivity.
Qed.

Lemma job_checkout_ok repository branch server client enable_nfs log_directory
    (w : World) :
  exists passed w',
    job_checkout repository branch server client enable_nfs log_directory w
    = (Ok passed, w').
Proof. eapply stage_jobs_ok, job_checkout_jobs. Qed.

Lemma job_compile_ok repository libos is_debug server client enable_nfs log_directory
    (w : World) :
  exists passed w',
    job_compile repository libos is_debug server client enable_nfs log_directory w
    = (Ok passed, w').
Proof. eapply stage_jobs_ok, job_compile_jobs. Qed.

Lemma job_test_integration_tcp_rust_ok repo libos is_debug server client server_addr
    client_addr is_sudo config_path log_directory (w : World) :
  exists passed w',
    job_test_integration_tcp_rust repo libos is_debug server client server_addr
      client_addr is_sudo config_path log_directory w = (Ok passed, w').
Proof.
  rewrite job_test_integration_tcp_rust_outcome.
  erewrite stage_outcome_spec by reflexivity. eauto.
Qed.

(** With the gate open and a delay that [time.sleep] takes, the unit stage
    returns, and it adds the keys of the stages it ran. *)
Lemma unit_stage_keys repository libos is_debug server client server_addr client_addr
    delay config_path is_sudo log_directory (w : World) :
  sleep_accepts delay = true ->
  exists status' w',
    unit_stage repository libos is_debug server client true server_addr client_addr
               delay config_path is_sudo log_directory
               [("checkout", true); ("compile", true)] w = (Ok status', w')
    /\ dict_get "checkout" status' = Some true
    /\ dict_get "compile" status' = Some true
    /\ dict_keys status'
       = "checkout" :: "compile" :: "unit_tests"
           :: (if String.eqb libos "catnap" || String.eqb libos "catmem"
               then ["integration_tests"] else []).
Proof.
  intros Hsleep. unfold unit_stage.
  rewrite (bind_ok _ _ _ _ _
             (gate_open [("checkout", true); ("compile", true)] w eq_refl eq_refl)).
  destruct (job_test_unit_rust_ok repository libos is_debug server client is_sudo
              config_path log_directory w) as (unit_passed & w1 & Hunit).
  rewrite (bind_ok _ _ _ _ _ Hunit).
  destruct (String.eqb libos "catnap") eqn:Hcatnap.
  - destruct (job_test_integration_tcp_rust_ok repository libos is_debug server client
                server_addr client_addr is_sudo config_path log_directory w1)
      as (tcp_passed & w2 & Htcp).
    rewrite (bind_ok _ _ _ _ _ Htcp). do 2 eexists. split; [reflexivity|].
    repeat split.
  - destruct (String.eqb libos "catmem") eqn:Hcatmem.
    + pose proof (fun run_mode w =>
                    job_test_integration_pipe_rust_ok repository libos is_debug run_mode
                      server client server_addr delay is_sudo config_path log_directory
                      w Hsleep) as Hpipe.
      destruct (Hpipe "standalone" w1) as (v1 & w2 & H1).
      destruct (Hpipe "push-wait" w2) as (v2 & w3 & H2).
      destruct (Hpipe "pop-wait" w3) as (v3 & w4 & H3).
      destruct (Hpipe "push-wait-async" w4) as (v4 & w5 & H4).
      destruct (Hpipe "pop-wait-async" w5) as (v5 & w6 & H5).
      rewrite (bind_ok _ _ _ _ _ H1), (bind_ok _ _ _ _ _ H2), (bind_ok _ _ _ _ _ H3),
        (bind_ok _ _ _ _ _ H4), (bind_ok _ _ _ _ _ H5).
      do 2 eexists. split; [reflexivity|]. repeat split.
    + do 2 eexists. split; [reflexivity|]. repeat split.
Qed.

(** X16. A run without system tests, with a delay that [time.sleep] takes,
    returns its status mapping once the log directory is made: no lookup
    of the mapping fails and no stage finds its job set empty. The keys of
    the mapping are, in the order of the stages: [checkout]; [compile]
    when the checkout passed; [unit_tests] when unit tests are requested
    and the compile passed too; [integration_tests] after it on the two
    runtimes that have an integration test; and [cleanup] last. *)
Theorem pipeline_keys repository branch libos is_debug server client test_unit
    test_system server_addr client_addr delay config_path output_dir enable_nfs
    (w w0 : World) :
  truthy test_system = false ->
  sleep_accepts delay = true ->
  rotate_logs (log_directory_of output_dir libos branch is_debug) w = (Ok tt, w0) ->
  exists status w' checkout_ok compile_ok,
    run_pipeline repository branch libos is_debug server client test_unit test_system
      server_addr client_addr delay config_path output_dir enable_nfs w
    = (Ok status, w')
    /\ dict_get "checkout" status = Some checkout_ok
    /\ (checkout_ok = true -> dict_get "compile" status = Some compile_ok)
    /\ dict_keys status = stage_keys libos test_unit checkout_ok compile_ok.
Proof.
  intros Hsystem Hsleep Hrot.
  set (log_directory := log_directory_of output_dir libos branch is_debug) in *.
  destruct (job_checkout_ok repository branch server client enable_nfs log_directory w0)
    as (checkout_ok & w1 & Hcheckout).
  unfold run_pipeline. fold log_directory.
  rewrite (bind_ok _ _ _ _ _ Hrot), (bind_ok _ _ _ _ _ Hcheckout).
  unfold system_stage. rewrite Hsystem.
  destruct checkout_ok.
  - destruct (job_compile_ok repository libos is_debug server client enable_nfs
                log_directory w1) as (compile_ok & w2 & Hcompile).
    cbn [dict_set]. unfold getitem at 1.
    cbn [dict_get String.eqb Ascii.eqb Bool.eqb].
    unfold bind at 1. unfold ret at 1. unfold bind at 1. unfold bind at 1.
    rewrite Hcompile. unfold ret at 1. cbn [dict_set String.eqb Ascii.eqb Bool.eqb].
    destruct test_unit, compile_ok.
    + destruct (unit_stage_keys repository libos is_debug server client server_addr
                  client_addr delay config_path (is_sudo_of libos) log_directory
                  w2 Hsleep)
        as (status3 & w3 & Hunit & Hco3 & Hcomp3 & Hkeys3).
      rewrite (bind_ok _ _ _ _ _ Hunit). unfold ret at 1. unfold bind at 1.
      destruct (job_cleanup_ok repository server client (is_sudo_of libos) enable_nfs
                  log_directory w3) as (cleaned & w4 & Hclean).
      rewrite (bind_ok _ _ _ _ _ Hclean).
      exists (dict_set "cleanup" cleaned status3), w4, true, true.
      split; [reflexivity|].
      split; [now rewrite dict_get_set_ne by discriminate|].
      split; [intros _; now rewrite dict_get_set_ne by discriminate|].
      unfold stage_keys. cbn [andb].
      destruct status3 as [|[k1 v1] [|[k2 v2] [|[k3 v3] status3]]]; try discriminate.
      injection Hkeys3 as -> -> -> Hrest.
      destruct (String.eqb libos "catnap" || String.eqb libos "catmem").
      * destruct status3 as [|[k4 v4] [|? ?]]; try discriminate.
        injection Hrest as ->. reflexivity.
      * destruct status3; [reflexivity | discriminate].
    + destruct (job_cleanup_ok repository server client (is_sudo_of libos) enable_nfs
                  log_directory w2) as (cleaned & w3 & Hclean).
      unfold unit_stage, bind, gate, getitem, ret; simpl; unfold bind.
      rewrite Hclean. exists [("checkout", true); ("compile", false); ("cleanup", cleaned)].
      exists w3, true, false. repeat split.
    + destruct (job_cleanup_ok repository server client (is_sudo_of libos) enable_nfs
                  log_directory w2) as (cleaned & w3 & Hclean).
      unfold unit_stage, bind, ret; simpl; unfold bind.
      rewrite Hclean. exists [("checkout", true); ("compile", true); ("cleanup", cleaned)].
      exists w3, true, true. repeat split.
    + destruct (job_cleanup_ok repository server client (is_sudo_of libos) enable_nfs
                  log_directory w2) as (cleaned & w3 & Hclean).
      unfold unit_stage, bind, ret; simpl; unfold bind.
      rewrite Hclean. exists [("checkout", true); ("compile", false); ("cleanup", cleaned)].
      exists w3, true, false. repeat split.
  - destruct (job_cleanup_ok repository server client (is_sudo_of libos) enable_nfs
                log_directory w1) as (cleaned & w2 & Hclean).
    unfold unit_stage.
    destruct test_unit; unfold bind, gate, getitem, ret; simpl; unfold bind;
      rewrite Hclean;
      exists [("checkout", false); ("cleanup", cleaned)], w2, false, false;
      repeat split; intros; discriminate.
Qed.

(** X19. The cleanup ends every run that returns. The pipeline returns in
    the world the cleanup stage leaves, so the last report line is the one
    of the cleanup, and the [cleanup] entry of the mapping is the verdict
    of that stage, also when a system test was recorded under the same
    name before. *)
Theorem cleanup_runs_last repository branch libos is_debug server client test_unit
    test_system server_addr client_addr delay config_path output_dir enable_nfs
    (w w' : World) status :
  run_pipeline repository branch libos is_debug server client test_unit test_system
    server_addr client_addr delay config_path output_dir enable_nfs w
  = (Ok status, w') ->
  exists cleaned before reports,
    job_cleanup repository server client (is_sudo_of libos) enable_nfs
      (log_directory_of output_dir libos branch is_debug) before = (Ok cleaned, w')
    /\ dict_get "cleanup" status = Some cleaned
    /\ printed (trace w') = reports ++ [(cleaned, "cleanup")].
Proof.
  intros Hrun. unfold run_pipeline in Hrun.
  do 5 (apply bind_Ok_inv in Hrun; destruct Hrun as (? & ? & _ & Hrun)).
  apply bind_Ok_inv in Hrun as (status4 & before & _ & Hrun).
  apply bind_Ok_inv in Hrun as (cleaned & w4 & Hclean & Hrun).
  unfold ret in Hrun. injection Hrun as <- <-.
  exists cleaned, before, (printed (trace before)).
  split; [exact Hclean|]. split; [apply dict_get_set_eq|].
  pose proof (job_cleanup_outcome repository server client (is_sudo_of libos) enable_nfs
                (log_directory_of output_dir libos branch is_debug) before) as Hout.
  cbv zeta in Hout. rewrite Hout in Hclean.
  destruct enable_nfs;
    (erewrite stage_outcome_spec in Hclean by reflexivity);
    injection Hclean as <- <-; cbn [trace];
    rewrite printed_app; reflexivity.
Qed.

(** *** The privilege rule *)


















(** *** Waiting for jobs, and a refused delay *)

(** X2. What a wait that returns has done. When waiting for a job set
    returns, the status list has one pair for each job, process and exit
    code, in the order the jobs were added. Each job was waited for once,
    in that order, and two writes were made for it, to
    [<log_directory>/<job_name>.stdout.txt] and
    [<log_directory>/<job_name>.stderr.txt], of the two captured streams
    as they are. Nothing was launched or printed, and the job set is
    empty afterwards. *)
Theorem wait_jobs_logs log_directory jobs (w w' : World) status duration :
  wait_jobs log_directory jobs w = (Ok (status, duration), w') ->
  status = map (fun it => (snd it, returncode (snd it))) (jobs_of w jobs)
  /\ exists added,
       trace w' = trace w ++ added
       /\ waited added = map snd (jobs_of w jobs)
       /\ written added = flat_map (log_files log_directory) (jobs_of w jobs)
       /\ launches added = []
       /\ schedule added = []
       /\ printed added = []
       /\ jobs_of w' jobs = [].
Proof.
  rewrite wait_jobs_spec. intros [= <- _ <-]. split; [reflexivity|].
  eexists. split; [reflexivity|].
  rewrite waited_wait_events, written_wait_events, launches_wait_events,
    schedule_wait_events, printed_wait_events, jobs_of_drained.
  repeat split.
Qed.

(** X7. When [time.sleep] refuses the delay, with [ValueError] for a
    negative one or [OverflowError] for one too large, a system test job,
    and the pipe integration stage in every mode but standalone, raise
    that error right after the launch of the server. The server process
    is then never waited for: no client is launched, no log file is
    written, no report line is printed, and the job set still holds the
    server job. *)
Theorem refused_delay_orphans_server test_alias test_name repo libos is_debug run_mode
    server client server_addr server_args client_args is_sudo all_pass delay
    config_path log_directory (w : World) :
  let abandoned (outcome : result bool * World) job_name cmd :=
    fst outcome = Raise (sleep_error delay)
    /\ trace (snd outcome) = trace w ++ [EvPopen (next_pid w) cmd]
    /\ jobs_of (snd outcome) (next_ref w) = [(job_name, next_pid w)] in
  sleep_accepts delay = false ->
  abandoned
    (job_test_system_rust test_alias test_name repo libos is_debug server client
       server_args client_args is_sudo all_pass delay config_path log_directory w)
    (test_alias +:+ "-server-" +:+ server)
    (ssh_cmd server
       (run_cmd repo is_debug
          ("test-system-rust LIBOS=" +:+ libos +:+ " TEST=" +:+ test_name +:+ " "
             +:+ quoted_args server_args)
          is_sudo config_path))
  /\ (run_mode <> "standalone" ->
      abandoned
        (job_test_integration_pipe_rust repo libos is_debug run_mode server client
           server_addr delay is_sudo config_path log_directory w)
        (("integration-test-" +:+ run_mode) +:+ "-server-" +:+ server)
        (ssh_cmd server
           (run_cmd repo is_debug
              (pipe_cmd libos (pipe_args "server" server_addr run_mode))
              is_sudo config_path))).
Proof.
  cbv zeta. intros Hsleep. split.
  - pose proof (job_test_system_rust_outcome test_alias test_name repo libos is_debug
                  server client server_args client_args is_sudo all_pass delay
                  config_path log_directory w) as Hout.
    cbv zeta in Hout. rewrite Hout, Hsleep.
    split; [reflexivity|]. split; [reflexivity|].
    unfold jobs_of. cbn [snd heap]. now rewrite lookup_insert_eq.
  - intros Hmode. apply String.eqb_neq in Hmode.
    pose proof (job_test_integration_pipe_rust_outcome repo libos is_debug run_mode
                  server client server_addr delay is_sudo config_path log_directory w)
      as Hout.
    cbv zeta in Hout. rewrite Hout, Hmode, Hsleep.
    split; [reflexivity|]. split; [reflexivity|].
    unfold jobs_of. cbn [snd heap]. now rewrite lookup_insert_eq.
Qed.

End Properties.

(** ** The properties on concrete runs *)

(** The run with every process passing records every stage, the system
    tests under their catalog names. *)
Example run_all_pass :
  fst (main (platform := all_pass_host) (catalog := quiet_catalog) catmem_args empty_world)
  = Raise (SystemExit 0)
  /\ fst (run_pipeline (platform := all_pass_host) (catalog := quiet_catalog)
            "/demikernel" "feature/ci" "catmem" false "srv" "cli" true (Some "all")
            "10.0.0.1" "10.0.0.2" 1 "cfg" "." false empty_world)
     = Ok [("checkout", true); ("compile", true); ("unit_tests", true);
           ("integration_tests", true); ("tcp_echo", true); ("tcp_close", true);
           ("cleanup", true)].
Proof. split; vm_compute; reflexivity. Qed.

(** Scenario A of the specification: the checkout fails on the server. *)
Example run_checkout_fails :
  fst (run_pipeline (platform := first_fails_host) (catalog := quiet_catalog)
         "/demikernel" "feature/ci" "catmem" false "srv" "cli" true (Some "all")
         "10.0.0.1" "10.0.0.2" 1 "cfg" "." false empty_world)
  = Ok [("checkout", false); ("cleanup", true)]
  /\ fst (main (platform := first_fails_host) (catalog := quiet_catalog) catmem_args
            empty_world)
     = Raise (SystemExit (-1))
  /\ process_exit_code (SystemExit (-1)) = 255.
Proof. repeat split; vm_compute; reflexivity. Qed.

(** Scenario B of the specification: unit tests on the TCP runtime. *)
Example run_tcp_runtime :
  fst (run_pipeline (platform := all_pass_host) (catalog := quiet_catalog)
         "/demikernel" "dev" "catnap" true "srv" "cli" true None
         "10.0.0.1" "10.0.0.2" 1 "cfg" "." true empty_world)
  = Ok [("checkout", true); ("compile", true); ("unit_tests", true);
        ("integration_tests", true); ("cleanup", true)].
Proof. vm_compute. reflexivity. Qed.

(** A negative delay stops the run in the first pipe mode that has a
    client: [time.sleep] raises, and no status mapping is returned. *)
Example run_negative_delay :
  fst (run_pipeline (platform := all_pass_host) (catalog := quiet_catalog)
         "/demikernel" "dev" "catmem" true "srv" "cli" true None
         "10.0.0.1" "10.0.0.2" (-1) "cfg" "." true empty_world)
  = Raise ValueError.
Proof. vm_compute. reflexivity. Qed.

Example run_cmd_text :
  run_cmd "/demikernel" false "test-unit-rust LIBOS=catnip" (is_sudo_of "catnip") "cfg"
  = "cd /demikernel && sudo -E make CONFIG_PATH=cfg DEBUG=no test-unit-rust LIBOS=catnip"
  /\ run_cmd "/demikernel" false "test-unit-rust LIBOS=catnap" (is_sudo_of "catnap") "cfg"
     = "cd /demikernel &&  make CONFIG_PATH=cfg DEBUG=no test-unit-rust LIBOS=catnap".
Proof. split; reflexivity. Qed.

Example log_directory_text :
  log_directory_of "." "catmem" "feature/ci" false = "./catmem-feature_ci-release".
Proof. reflexivity. Qed.

Lemma wait_and_report_verdict_witness :
  (exists passed,
      fst (wait_and_report (platform := first_fails_host) "unit-test" "." 0 true
             (world_with_jobs [("unit-test-server-srv", 0%nat)])) = Ok passed
      /\ (passed = true <-> 1 = 0))
  /\ (exists passed,
         fst (wait_and_report (platform := first_fails_host) "checkout" "." 0 false
                (world_with_jobs [("checkout-server-srv", 0%nat);
                                  ("checkout-client-cli", 1%nat)])) = Ok passed
         /\ (false = true -> (passed = true <-> 1 = 0 /\ 0 = 0))
         /\ (false = false -> (passed = true <-> 1 = 0 \/ 0 = 0))).
Proof.
  split.
  - apply (proj1 (wait_and_report_verdict (platform := first_fails_host) "unit-test" "."
                    0%nat true (world_with_jobs [("unit-test-server-srv", 0%nat)]))
             "unit-test-server-srv" 0%nat).
    reflexivity.
  - apply (proj2 (wait_and_report_verdict (platform := first_fails_host) "checkout" "."
                    0%nat false
                    (world_with_jobs [("checkout-server-srv", 0%nat);
                                      ("checkout-client-cli", 1%nat)]))
             "checkout-server-srv" 0%nat "checkout-client-cli" 1%nat).
    reflexivity.
Defined.

Lemma wait_and_report_drains_witness :
  exists passed w',
    wait_and_report (platform := first_fails_host) "checkout" "." 0 true
      (world_with_jobs [("checkout-server-srv", 0%nat); ("checkout-client-cli", 1%nat)])
    = (Ok passed, w')
    /\ heap w' !! 0%nat = Some []
    /\ jobs_of w' 0 = [].
Proof.
  apply (wait_and_report_drains (platform := first_fails_host)).
  vm_compute. discriminate.
Defined.

Lemma wait_and_report_empty_witness :
  ((exists duration w1,
       wait_jobs (platform := all_pass_host) "." 0 (world_with_jobs [])
       = (Ok ([], duration), w1))
   /\ exists w',
       wait_and_report (platform := all_pass_host) "checkout" "." 0 true
         (world_with_jobs []) = (Raise IndexError, w'))
  /\ exists passed w',
      wait_and_report (platform := all_pass_host) "checkout" "." 0 true
        (world_with_jobs [("checkout-server-srv", 0%nat)]) = (Ok passed, w').
Proof.
  split.
  - apply (proj1 (wait_and_report_empty (platform := all_pass_host) "checkout" "." 0%nat
                    true (world_with_jobs []))).
    reflexivity.
  - apply (proj2 (wait_and_report_empty (platform := all_pass_host) "checkout" "." 0%nat
                    true (world_with_jobs [("checkout-server-srv", 0%nat)]))).
    vm_compute. discriminate.
Defined.


Lemma checkout_gate_witness :
  is_Some (dict_get "cleanup"
             [("checkout", true); ("compile", true); ("unit_tests", true);
              ("integration_tests", true); ("tcp_echo", true); ("tcp_close", true);
              ("cleanup", true)])
  /\ exists status w',
      run_pipeline (platform := first_fails_host) (catalog := quiet_catalog)
        "/demikernel" "feature/ci" "catmem" false "srv" "cli" true (Some "all")
        "10.0.0.1" "10.0.0.2" 1 "cfg" "." false empty_world = (Ok status, w')
      /\ dict_keys status = ["checkout"; "cleanup"]
      /\ dict_get "checkout" status = Some false
      /\ is_Some (dict_get "cleanup" status)
      /\ dict_get "compile" status = None
      /\ dict_get "unit_tests" status = None
      /\ dict_get "integration_tests" status = None
      /\ forall name,
          name <> "checkout" -> name <> "cleanup" -> dict_get name status = None.
Proof.
  split.
  - apply (proj1 (checkout_gate (platform := all_pass_host) (catalog := quiet_catalog)
                    "/demikernel" "feature/ci" "catmem" false "srv" "cli" true
                    (Some "all") "10.0.0.1" "10.0.0.2" 1 "cfg" "." false empty_world)
             _
             (snd (run_pipeline (platform := all_pass_host) (catalog := quiet_catalog)
                     "/demikernel" "feature/ci" "catmem" false "srv" "cli" true
                     (Some "all") "10.0.0.1" "10.0.0.2" 1 "cfg" "." false empty_world))).
    vm_compute. reflexivity.
  - apply (proj2 (checkout_gate (platform := first_fails_host) (catalog := quiet_catalog)
                    "/demikernel" "feature/ci" "catmem" false "srv" "cli" true
                    (Some "all") "10.0.0.1" "10.0.0.2" 1 "cfg" "." false empty_world)).
    vm_compute. reflexivity.
Defined.

Lemma exit_status_witness :
  exists code,
    fst (main (platform := first_fails_host) (catalog := quiet_catalog) catmem_args
           empty_world) = Raise (SystemExit code)
    /\ process_exit_code (SystemExit code) <> 0.
Proof.
  destruct (exit_status (platform := first_fails_host) (catalog := quiet_catalog)
              catmem_args empty_world
              (snd (run_pipeline (platform := first_fails_host) (catalog := quiet_catalog)
                      "/demikernel" "feature/ci" "catmem" false "srv" "cli" true
                      (Some "all") "10.0.0.1" "10.0.0.2" 1 "cfg" "." false empty_world))
              [("checkout", false); ("cleanup", true)])
    as (code & Hmain & _ & Hfail).
  - vm_compute. reflexivity.
  - exists code. split.
    + now rewrite Hmain.
    + apply Hfail. simpl. auto.
Defined.


Lemma wait_and_report_first_two_witness :
  exists w' added,
    wait_and_report (platform := third_fails_host) "stage" "." 0 true
      (world_with_jobs [("a", 0%nat); ("b", 1%nat); ("c", 2%nat)]) = (Ok true, w')
    /\ trace w' = added
    /\ waited added = [0%nat; 1%nat; 2%nat]
    /\ length (written added) = 6%nat.
Proof.
  destruct (wait_and_report_first_two (platform := third_fails_host) "stage" "." 0%nat
              true (world_with_jobs [("a", 0%nat); ("b", 1%nat); ("c", 2%nat)])
              ("a", 0%nat) ("b", 1%nat) ("c", 2%nat) [] eq_refl)
    as (w' & added & Hrun & Htrace & Hwaited & Hwritten).
  exists w', added. split; [exact Hrun|]. split; [exact Htrace|].
  split; [exact Hwaited|]. now rewrite Hwritten.
Defined.

Lemma system_job_policy_witness :
  exists w' added,
    job_test_system_rust (platform := first_fails_host) "tcp_echo" "tcp-echo" "/repo"
      "catnap" false "srv" "cli" "--peer server" "--peer client" false false 1 "cfg" "."
      empty_world = (Ok true, w')
    /\ trace w' = added
    /\ length (schedule added) = 3%nat
    /\ waited added = [0%nat; 1%nat]
    /\ printed added = [(true, "tcp_echo")].
Proof.
  destruct (system_job_policy (platform := first_fails_host) "tcp_echo" "tcp-echo" "/repo"
              "catnap" false "srv" "cli" "--peer server" "--peer client" false false 1
              "cfg" "." empty_world eq_refl)
    as (w' & added & Hrun & Htrace & Hsched & Hwaited & Hprinted).
  exists w', added. split; [exact Hrun|]. split; [exact Htrace|].
  split; [now rewrite Hsched|]. split; [exact Hwaited | exact Hprinted].
Defined.

Lemma compile_gate_witness :
  exists cleaned,
    fst (run_pipeline (platform := third_fails_host) (catalog := quiet_catalog)
           "/demikernel" "dev" "catnap" false "srv" "cli" true (Some "all") "10.0.0.1"
           "10.0.0.2" 1 "cfg" "." false empty_world)
    = Ok [("checkout", true); ("compile", false); ("cleanup", cleaned)].
Proof.
  pose (log_directory := log_directory_of "." "catnap" "dev" false).
  pose (w0 := snd (rotate_logs (float := Z) log_directory empty_world)).
  pose (w1 := snd (job_checkout (platform := third_fails_host) "/demikernel" "dev" "srv"
                     "cli" false log_directory w0)).
  pose (w2 := snd (job_compile (platform := third_fails_host) "/demikernel" "catnap"
                     false "srv" "cli" false log_directory w1)).
  destruct (compile_gate (platform := third_fails_host) (catalog := quiet_catalog)
              "/demikernel" "dev" "catnap" false "srv" "cli" true (Some "all")
              "10.0.0.1" "10.0.0.2" 1 "cfg" "." false empty_world w0 w1 w2)
    as (cleaned & w' & _ & Hrun).
  - vm_compute. reflexivity.
  - vm_compute. reflexivity.
  - vm_compute. reflexivity.
  - exists cleaned. now rewrite Hrun.
Defined.

Lemma catnap_unit_stage_witness :
  exists unit_passed tcp_passed,
    fst (unit_stage (platform := first_fails_host) "/demikernel" "catnap" false "srv"
           "cli" true "10.0.0.1" "10.0.0.2" 1 "cfg" false "./log"
           [("checkout", true); ("compile", true)] empty_world)
    = Ok [("checkout", true); ("compile", true); ("unit_tests", unit_passed);
          ("integration_tests", tcp_passed)].
Proof.
  destruct (catnap_unit_stage (platform := first_fails_host) "/demikernel" "catnap" false
              "srv" "cli" "10.0.0.1" "10.0.0.2" 1 "cfg" false "./log"
              [("checkout", true); ("compile", true)] empty_world
              eq_refl eq_refl eq_refl)
    as (unit_passed & w1 & tcp_passed & w2 & _ & _ & Hstage).
  exists unit_passed, tcp_passed. now rewrite Hstage.
Defined.

Lemma other_runtime_unit_stage_witness :
  exists unit_passed,
    fst (unit_stage (platform := all_pass_host) "/demikernel" "catnip" false "srv" "cli"
           true "10.0.0.1" "10.0.0.2" 1 "cfg" true "./log"
           [("checkout", true); ("compile", true)] empty_world)
    = Ok [("checkout", true); ("compile", true); ("unit_tests", unit_passed)].
Proof.
  destruct (other_runtime_unit_stage (platform := all_pass_host) "/demikernel" "catnip"
              false "srv" "cli" "10.0.0.1" "10.0.0.2" 1 "cfg" true "./log"
              [("checkout", true); ("compile", true)] empty_world
              ltac:(discriminate) ltac:(discriminate) eq_refl eq_refl)
    as (unit_passed & w1 & _ & Hstage).
  exists unit_passed. now rewrite Hstage.
Defined.

Lemma run_tests_records_witness :
  let scaffolding :=
    create_scaffolding (float := Z) "catnap" "srv" "10.0.0.1" "cli" "10.0.0.2" false
                       false "/demikernel" 1 "cfg" "./log" in
  let status' :=
    [("checkout", true); ("compile", true); ("tcp_echo", true); ("tcp_close", true)] in
  (forall name, In name ["tcp_echo"; "tcp_close"] -> is_Some (dict_get name status'))
  /\ (forall key,
         ~ In key ["tcp_echo"; "tcp_close"] ->
         dict_get key status' = dict_get key [("checkout", true); ("compile", true)]).
Proof.
  cbv zeta.
  apply (run_tests_records (platform := all_pass_host) (catalog := quiet_catalog)
           (create_scaffolding (float := Z) "catnap" "srv" "10.0.0.1" "cli" "10.0.0.2"
              false false "/demikernel" 1 "cfg" "./log")
           tt ["tcp_echo"; "tcp_close"] [("checkout", true); ("compile", true)]
           empty_world empty_world).
  vm_compute. reflexivity.
Defined.

Lemma single_system_test_witness :
  exists passed,
    [("checkout", true); ("compile", true); ("tcp_echo", true)]
    = dict_set "tcp_echo" passed [("checkout", true); ("compile", true)].
Proof.
  apply (single_system_test (platform := all_pass_host) (catalog := quiet_catalog)
           "/demikernel" "catnap" false "srv" "cli" "tcp_echo" "10.0.0.1" "10.0.0.2" 1
           "cfg" false "./log" [("checkout", true); ("compile", true)]
           [("checkout", true); ("compile", true); ("tcp_echo", true)]
           empty_world empty_world);
    try discriminate; reflexivity.
Defined.

Lemma pipeline_keys_witness :
  exists status checkout_ok compile_ok,
    fst (run_pipeline (platform := all_pass_host) (catalog := quiet_catalog)
           "/demikernel" "dev" "catmem" false "srv" "cli" true None "10.0.0.1" "10.0.0.2"
           1 "cfg" "." false empty_world) = Ok status
    /\ dict_keys status = stage_keys "catmem" true checkout_ok compile_ok.
Proof.
  destruct (pipeline_keys (platform := all_pass_host) (catalog := quiet_catalog)
              "/demikernel" "dev" "catmem" false "srv" "cli" true None "10.0.0.1"
              "10.0.0.2" 1 "cfg" "." false empty_world
              (snd (rotate_logs (float := Z) (log_directory_of "." "catmem" "dev" false)
                      empty_world))
              eq_refl eq_refl eq_refl)
    as (status & w' & checkout_ok & compile_ok & Hrun & _ & _ & Hkeys).
  exists status, checkout_ok, compile_ok. split; [now rewrite Hrun | exact Hkeys].
Defined.

Lemma cleanup_runs_last_witness :
  exists cleaned reports,
    printed (trace (snd (run_pipeline (platform := all_pass_host)
                           (catalog := quiet_catalog) "/demikernel" "dev" "catnap" false
                           "srv" "cli" true (Some "all") "10.0.0.1" "10.0.0.2" 1 "cfg"
                           "." false empty_world)))
    = reports ++ [(cleaned, "cleanup")].
Proof.
  destruct (cleanup_runs_last (platform := all_pass_host) (catalog := quiet_catalog)
              "/demikernel" "dev" "catnap" false "srv" "cli" true (Some "all")
              "10.0.0.1" "10.0.0.2" 1 "cfg" "." false empty_world
              (snd (run_pipeline (platform := all_pass_host) (catalog := quiet_catalog)
                      "/demikernel" "dev" "catnap" false "srv" "cli" true (Some "all")
                      "10.0.0.1" "10.0.0.2" 1 "cfg" "." false empty_world))
              [("checkout", true); ("compile", true); ("unit_tests", true);
               ("integration_tests", true); ("tcp_echo", true); ("tcp_close", true);
               ("cleanup", true)])
    as (cleaned & before & reports & _ & _ & Hprinted).
  - vm_compute. reflexivity.
  - exists cleaned, reports. exact Hprinted.
Defined.

(** On catnip every run and cleanup command of a run is elevated, the ones
    of its system tests too; on catnap none is. The checkout and compile
    commands carry no elevation. *)
Example run_elevations :
  let elevations libos :=
    map (fun launched =>
           match launched_elevation "srv" "/demikernel" launched with
           | Some elevated => Some elevated
           | None => launched_elevation "cli" "/demikernel" launched
           end)
        (launches
           (trace
              (snd (run_pipeline (platform := all_pass_host)
                      (catalog := scaffolded_catalog) "/demikernel" "dev" libos false
                      "srv" "cli" true (Some "all") "10.0.0.1" "10.0.0.2" 1 "cfg" "."
                      false empty_world)))) in
  elevations "catnip"
  = [None; None; None; None; Some true; Some true; Some true; Some true; Some true;
     Some true; Some true]
  /\ elevations "catnap"
     = [None; None; None; None; Some false; Some false; Some false; Some false;
        Some false; Some false; Some false; Some false; Some false].
Proof. vm_compute. split; reflexivity. Qed.


Lemma wait_jobs_logs_witness :
  exists status duration w',
    wait_jobs (platform := all_pass_host) "." 0
      (world_with_jobs [("checkout-server-h", 0%nat); ("checkout-client-h", 1%nat)])
    = (Ok (status, duration), w')
    /\ map fst status = [0%nat; 1%nat]
    /\ map fst (written (trace w'))
       = ["./checkout-server-h.stdout.txt"; "./checkout-server-h.stderr.txt";
          "./checkout-client-h.stdout.txt"; "./checkout-client-h.stderr.txt"].
Proof.
  do 3 eexists. split; [vm_compute; reflexivity|].
  match goal with
  | |- map fst ?status = _ /\ map fst (written (trace ?w')) = _ =>
      destruct (wait_jobs_logs (platform := all_pass_host) "." 0%nat
                  (world_with_jobs
                     [("checkout-server-h", 0%nat); ("checkout-client-h", 1%nat)])
                  w' status _ eq_refl)
        as (Hstatus & added & Htrace & _ & Hwritten & _)
  end.
  split; [reflexivity|].
  rewrite Htrace, written_app, Hwritten. reflexivity.
Defined.

Lemma refused_delay_orphans_server_witness :
  fst (job_test_system_rust (platform := all_pass_host) "tcp_echo" "tcp-echo" "/repo"
         "catnap" false "srv" "cli" "--peer server" "--peer client" false true (-1)
         "cfg" "." empty_world) = Raise ValueError
  /\ fst (job_test_integration_pipe_rust (platform := all_pass_host) "/repo" "catmem"
            false "push-wait" "srv" "cli" "10.0.0.1" (-1) false "cfg" "." empty_world)
     = Raise ValueError.
Proof.
  destruct (refused_delay_orphans_server (platform := all_pass_host) "tcp_echo" "tcp-echo"
              "/repo" "catmem" false "push-wait" "srv" "cli" "10.0.0.1" "--peer server"
              "--peer client" false true (-1) "cfg" "." empty_world eq_refl)
    as [[Hsystem _] Hpipe].
  split.
  - exact Hsystem.
  - apply Hpipe. discriminate.
Defined.

(** A delay too large for [time.sleep] is refused with [OverflowError], a
    negative one with [ValueError]. *)
Example run_refused_delays :
  let run delay :=
    fst (run_pipeline (platform := all_pass_host) (catalog := quiet_catalog)
           "/demikernel" "dev" "catmem" false "srv" "cli" true None "10.0.0.1"
           "10.0.0.2" delay "cfg" "." false empty_world) in
  run 10000000000 = Raise OverflowError /\ run (-1) = Raise ValueError.
Proof. vm_compute. split; reflexivity. Qed.
